(** * claude-monitor.30s.py: the menu-bar widget, embedded and verified

    A shallow embedding of [src/claude-monitor.30s.py].

    Conventions of the embedding.
    - A Python [str] is a sequence of Unicode code points: [pystr := list N].
      [len], slicing, padding and [*] on strings count code points, and so
      do the corresponding list operations here.
    - A Python [int] is a [Z].  A Python [float] is an exact rational [Q]:
      the comparisons, [int()], [//], [%] and the fixed-point formatting
      of the source are exact on the value of a float, and the two
      arithmetic operations the source applies to floats ([/] and [*]) are
      taken without binary64 rounding.  The non-finite floats (nan, inf)
      have no counterpart.
    - A Python exception is a value of [exn]; code that can raise returns a
      [result].  [try/except] is a [match] on the result.
    - The path set-up that runs when the module is loaded
      ([_setup_uv_tool_path], lines 52-75) only changes where the imports
      of [main] look; it is embedded on its own, and in [main] its effect
      is part of the analyzer's import outcome. *)

From Stdlib Require Import ZArith QArith Qabs Qround Lqa List Ascii String DecimalString Lia.
From stdpp Require Import gmap list sorting.

Set Warnings "-register-all".
#[local] Open Scope Z_scope.

(** ** Strings *)

Abbreviation pystr := (list N).

(** An ASCII literal of the source, as code points. *)
Definition u (s : string) : pystr := map N_of_ascii (list_ascii_of_string s).

(** [s * n] on a string: [n] copies, none when [n <= 0]. *)
Definition str_mul (s : pystr) (n : Z) : pystr := concat (replicate (Z.to_nat n) s).

(** [sep.join(parts)] *)
Fixpoint str_join (sep : pystr) (parts : list pystr) : pystr :=
  match parts with
  | [] => []
  | [p] => p
  | p :: ps => p ++ sep ++ str_join sep ps
  end.

(** [f"{s:>w}"]: right-aligned in a field of [w] code points. *)
Definition rjust (w : nat) (s : pystr) : pystr := replicate (w - length s)%nat 32%N ++ s.

(** [f"{s:<w}"]: left-aligned in a field of [w] code points. *)
Definition ljust (w : nat) (s : pystr) : pystr := s ++ replicate (w - length s)%nat 32%N.

(** [str(n)] for a non-negative [int]. *)
Definition str_of_nonneg (n : Z) : pystr := u (NilZero.string_of_uint (N.to_uint (Z.to_N n))).

(** [str(n)] for an [int]. *)
Definition str_of_int (n : Z) : pystr :=
  if n <? 0 then u "-" ++ str_of_nonneg (- n) else str_of_nonneg n.

(** ** Exceptions *)

Inductive exn_class :=
| ImportError | TypeError | AttributeError | ValueError | ZeroDivisionError
| IndexError | OSError | RuntimeError | OverflowError.

(** An exception: its class and its text [str(e)]. *)
Record exn := Exn { exn_cls : exn_class; exn_msg : pystr }.

Inductive result (A : Type) :=
| Ok (a : A)
| Raise (e : exn).
Arguments Ok {A} a.
Arguments Raise {A} e.

Definition bind {A B} (r : result A) (k : A -> result B) : result B :=
  match r with
  | Ok a => k a
  | Raise e => Raise e
  end.

Notation "'try!' x <- r 'in' k" := (bind r (fun x => k))
  (at level 10, x name, r at level 100, k at level 200).

(** ** Numbers *)

(** [a < b] on floats. *)
Definition Qlt_bool (a b : Q) : bool := negb (Qle_bool b a).

(** [a / b] (true division): raises when the divisor is zero. *)
Definition py_truediv (a b : Q) : result Q :=
  if Qeq_bool b 0 then Raise (Exn ZeroDivisionError (u "division by zero"))
  else Ok (a / b)%Q.

(** [int(x)] on a float: truncation toward zero. *)
Definition py_int (x : Q) : Z := Z.quot (Qnum x) (Zpos (Qden x)).

(** Round to the nearest integer, ties to the even one; the rounding
    of the [f] presentation type of [format]. *)
Definition round_half_even (x : Q) : Z :=
  let f := Qfloor x in
  let r := (x - inject_Z f)%Q in
  if Qlt_bool r (1 # 2) then f
  else if Qlt_bool (1 # 2) r then f + 1
  else if Z.even f then f else f + 1.

(** The decimal digit [d], [0 <= d <= 9], as a code point. *)
Definition digit (d : Z) : N := (48 + Z.to_N d)%N.

(** The last [prec] decimal digits of [n], most significant first. *)
Fixpoint frac_digits (prec : nat) (n : Z) : pystr :=
  match prec with
  | O => []
  | S p => frac_digits p (n / 10) ++ [digit (n mod 10)]
  end.

(** [f"{x:.{prec}f}"]: fixed point with [prec] decimals. *)
Definition format_f (prec : nat) (x : Q) : pystr :=
  let n := round_half_even (Qabs x * inject_Z (10 ^ Z.of_nat prec)) in
  (if Qlt_bool x 0 then u "-" else [])
  ++ str_of_nonneg (n / 10 ^ Z.of_nat prec)
  ++ match prec with
     | O => []
     | _ => u "." ++ frac_digits prec n
     end.

(** The digits of a positive number in groups of three, most significant
    first, the groups separated by commas. *)
Fixpoint group3 (fuel : nat) (n : Z) : pystr :=
  match fuel with
  | O => str_of_nonneg n
  | S f =>
      if n <? 1000 then str_of_nonneg n
      else group3 f (n / 1000) ++ u "," ++ frac_digits 3 (n mod 1000)
  end.

(** ** Colors and fonts (lines 77-93) *)

Definition COLOR_GREEN : pystr := u "#6BDB7B".
Definition COLOR_YELLOW : pystr := u "#FFD95C".
Definition COLOR_ORANGE : pystr := u "#FF9F43".
Definition COLOR_RED : pystr := u "#FF6B6B".
Definition COLOR_GRAY : pystr := u "#8E8E93".
Definition COLOR_WHITE : pystr := u "#FFFFFF".
Definition COLOR_DIM : pystr := u "#A0A0A8".
Definition COLOR_LABEL : pystr := u "#B0B0B8".

Definition TITLE_FONT : pystr := u "SFMono-Regular".
Definition TITLE_SIZE : Z := 12.
Definition TITLE_OFFSET : Z := 2.
Definition MONO_FONT : pystr := u "SFMono-Regular".
Definition BODY_SIZE : Z := 12.
Definition SMALL_SIZE : Z := 11.

(** ** The formatter (lines 96-139) *)

Definition get_color (pct : Q) : pystr :=
  if Qle_bool 95 pct then COLOR_RED
  else if Qle_bool 80 pct then COLOR_ORANGE
  else if Qle_bool 50 pct then COLOR_YELLOW
  else COLOR_GREEN.

(** U+2588 FULL BLOCK and U+2591 LIGHT SHADE. *)
Definition FULL_BLOCK : N := 9608.
Definition LIGHT_SHADE : N := 9617.

Definition bar_graph (pct : Q) (width : Z) : pystr :=
  let filled := py_int (pct / 100 * inject_Z width) in
  let filled := Z.min filled width in
  str_mul [FULL_BLOCK] filled ++ str_mul [LIGHT_SHADE] (width - filled).

Definition fmt_number (n : Z) : pystr :=
  if n <? 0 then u "-" ++ group3 (Z.to_nat (Z.log2 (- n))) (- n)
  else group3 (Z.to_nat (Z.log2 n)) n.

Definition fmt_cost (c : Q) : pystr := u "$" ++ format_f 2 c.

Definition fmt_pct (v total : Q) : result pystr :=
  if Qle_bool total 0 then Ok (u "0.0%")
  else
    try! q <- py_truediv v total in
    Ok (format_f 1 (q * 100) ++ u "%").

Definition fmt_duration (minutes : Q) : pystr :=
  if Qlt_bool minutes 1 then u "<1m"
  else if Qlt_bool minutes 60 then str_of_int (py_int minutes) ++ u "m"
  else
    let hours := py_int (inject_Z (Qfloor (minutes / 60))) in
    let mins := py_int (minutes - 60 * inject_Z (Qfloor (minutes / 60))) in
    str_of_int hours ++ u "h " ++ str_of_int mins ++ u "m".


(** ** The settings store (lines 148-244) *)

(** What [json.load] returns. *)
Inductive json :=
| JNull
| JBool (b : bool)
| JInt (n : Z)
| JFloat (q : Q)
| JStr (s : pystr)
| JList (l : list json)
| JObj (m : gmap pystr json).

(** A JSON file as the program sees it: [Missing] when [exists()] is
    false, [Unreadable] when [open] or [json.load] raises, [Parsed j] when
    [json.load] returns [j]. *)
Inductive file :=
| Missing
| Unreadable
| Parsed (j : json).

Definition VALID_PLANS : list pystr := [u "pro"; u "max5"; u "max20"; u "custom"].

Definition PLAN_LABELS : gmap pystr pystr :=
  <[u "pro" := u "Pro"]> (<[u "max5" := u "Max 5"]>
  (<[u "max20" := u "Max 20"]> (<[u "custom" := u "Custom"]> ∅))).

Definition DISPLAY_METRICS : list (pystr * pystr) :=
  [ (u "token_pct", u "Token %");
    (u "cost", u "Cost ($)");
    (u "cost_pct", u "Cost %");
    (u "msg", u "Messages");
    (u "msg_pct", u "Message %") ].

Definition DEFAULT_DISPLAY : list pystr := [u "token_pct"; u "cost"].

(** [{k for k, _ in DISPLAY_METRICS}] *)
Definition valid_keys : list pystr := map fst DISPLAY_METRICS.

(** [x in xs] on a list or tuple of strings. *)
Definition str_in (x : pystr) (xs : list pystr) : bool := bool_decide (x ∈ xs).

(** [type(j).__name__] *)
Definition type_name (j : json) : pystr :=
  match j with
  | JNull => u "NoneType"
  | JBool _ => u "bool"
  | JInt _ => u "int"
  | JFloat _ => u "float"
  | JStr _ => u "str"
  | JList _ => u "list"
  | JObj _ => u "dict"
  end.

(** [config.get(key)]: only a dict has the method. *)
Definition py_get (config : json) (key : pystr) : result (option json) :=
  match config with
  | JObj m => Ok (m !! key)
  | _ => Raise (Exn AttributeError
                  (u "'" ++ type_name config ++ u "' object has no attribute 'get'"))
  end.

(** [config[key] = value]: only a dict takes a string key. *)
Definition py_setitem (config : json) (key : pystr) (value : json) : result json :=
  match config with
  | JObj m => Ok (JObj (<[key := value]> m))
  | JList _ => Raise (Exn TypeError (u "list indices must be integers or slices, not str"))
  | _ => Raise (Exn TypeError
                  (u "'" ++ type_name config ++ u "' object does not support item assignment"))
  end.

(** [[d for d in display if d in valid_keys]]: membership in a set hashes
    [d], which raises on a list or a dict; a number, a boolean or [None]
    is hashable and equal to no key. *)
Fixpoint filter_valid (display : list json) : result (list pystr) :=
  match display with
  | [] => Ok []
  | JStr s :: ds =>
      try! rest <- filter_valid ds in
      Ok (if str_in s valid_keys then s :: rest else rest)
  | JList _ :: _ => Raise (Exn TypeError (u "unhashable type: 'list'"))
  | JObj _ :: _ => Raise (Exn TypeError (u "unhashable type: 'dict'"))
  | _ :: ds => filter_valid ds
  end.

(** The body of the [try] of [get_display]: [Ok (Some l)] is [return
    filtered], [Ok None] falls out of the [try]. *)
Definition get_display_try (config : json) : result (option (list pystr)) :=
  try! display <- py_get config (u "display") in
  match display with
  | Some (JList l) =>
      try! filtered <- filter_valid l in
      match filtered with
      | [] => Ok None
      | _ => Ok (Some filtered)
      end
  | _ => Ok None
  end.

Definition get_display (cfg : file) : list pystr :=
  match cfg with
  | Parsed config =>
      match get_display_try config with
      | Ok (Some filtered) => filtered
      | Ok None => DEFAULT_DISPLAY
      | Raise _ => DEFAULT_DISPLAY
      end
  | _ => DEFAULT_DISPLAY
  end.

(** [l.remove(x)]: drops the first occurrence. *)
Fixpoint list_remove_first (x : pystr) (l : list pystr) : list pystr :=
  match l with
  | [] => []
  | y :: ys => if bool_decide (x = y) then ys else y :: list_remove_first x ys
  end.

(** The directory creation and the write of [_save_config] are taken to
    succeed; the file then parses to the document that was dumped. *)
Definition _save_config (key : pystr) (value : json) (cfg : file) : result file :=
  let config :=
    match cfg with
    | Parsed j => j
    | _ => JObj ∅
    end in
  try! config <- py_setitem config key value in
  Ok (Parsed config).

Definition set_plan (plan : pystr) (cfg : file) : result file :=
  _save_config (u "plan") (JStr plan) cfg.

Definition toggle_display (metric : pystr) (cfg : file) : result file :=
  let current := get_display cfg in
  let current :=
    if str_in metric current then list_remove_first metric current
    else current ++ [metric] in
  let current :=
    match current with
    | [] => DEFAULT_DISPLAY
    | _ => current
    end in
  _save_config (u "display") (JList (map JStr current)) cfg.

(** ** Plan resolution (lines 163-193) *)

(** [str.isspace] on one code point. *)
Definition is_space (c : N) : bool :=
  ((9 <=? c) && (c <=? 13) || (28 <=? c) && (c <=? 32) || (c =? 133) || (c =? 160)
   || (c =? 5760) || (8192 <=? c) && (c <=? 8202) || (c =? 8232) || (c =? 8233)
   || (c =? 8239) || (c =? 8287) || (c =? 12288))%N.

Fixpoint str_lstrip (s : pystr) : pystr :=
  match s with
  | [] => []
  | c :: cs => if is_space c then str_lstrip cs else s
  end.

(** [s.strip()] *)
Definition str_strip (s : pystr) : pystr := rev (str_lstrip (rev (str_lstrip s))).

(** What the script reads from its environment: the variable [CCM_PLAN],
    the widget configuration file, the file [last_used.json] and the
    resolved path of the script itself. *)
Record world := World {
  CCM_PLAN : option pystr;
  config_file : file;
  last_used_file : file;
  script_path : pystr
}.

Definition set_config_file (w : world) (f : file) : world :=
  World (CCM_PLAN w) f (last_used_file w) (script_path w).

(** The accounting windows of the analyzer.  The five keys that the
    script reads for the title and the resource lines are typed as the
    analyzer produces them, each optional as [dict.get] has a default for
    it; [other_keys] holds the remaining ones. *)
Record block := Block {
  totalTokens : option Z;
  costUSD : option Q;
  sentMessagesCount : option Z;
  durationMinutes : option Q;
  isActive : option bool;
  other_keys : gmap pystr json
}.

(** The dict returned by [analyze_usage]. *)
Record usage := Usage { blocks : option (list block) }.

(** The external analyzer: the outcome of the two imports ([None] when
    both succeed), of the call [analyze_usage(hours_back=24,
    quick_start=True)], and the three limits of [Plans]. *)
Record analyzer := Analyzer {
  import_error : option exn;
  analyze_usage : result usage;
  get_token_limit : pystr -> list block -> result Z;
  get_cost_limit : pystr -> result Q;
  get_message_limit : pystr -> result Z
}.

(** ** Printing: the lines written so far and the outcome *)

Definition io (A : Type) : Type := (list pystr * result A)%type.

Definition io_bind {A B} (m : io A) (k : A -> io B) : io B :=
  match m with
  | (out, Ok a) => let '(out', r) := k a in (out ++ out', r)
  | (out, Raise e) => (out, Raise e)
  end.

Definition print (line : pystr) : io unit := ([line], Ok tt).
Definition prints (lines : list pystr) : io unit := (lines, Ok tt).
Definition lift {A} (r : result A) : io A := ([], r).

Notation "'do!' x <- m 'in' k" := (io_bind m (fun x => k))
  (at level 10, x name, m at level 100, k at level 200).
Notation "m ;;; k" := (io_bind m (fun _ => k))
  (at level 100, k at level 200, right associativity).

(** An f-string, as the concatenation of its pieces. *)
Definition fstr (pieces : list pystr) : pystr := concat pieces.

(** The step of [max]: the later argument replaces the earlier one only
    when it is greater. *)
Definition py_max (a b : Q) : Q := if Qlt_bool a b then b else a.

Definition CHECK_MARK : N := 10003.
Definition EM_DASH : N := 8212.

Section Script.

(** [str.lower] and [str.upper], the case mappings of the Unicode
    database of the runtime. *)
Variable str_lower : pystr -> pystr.
Variable str_upper : pystr -> pystr.

(** The plan stored in a JSON file, if the [try] of [get_plan] returns. *)
Definition plan_of_file (fl : file) : option pystr :=
  match fl with
  | Parsed config =>
      let body :=
        try! v <- py_get config (u "plan") in
        match v with
        | None => Ok (str_strip (str_lower []))
        | Some (JStr s) => Ok (str_strip (str_lower s))
        | Some j => Raise (Exn AttributeError
                             (u "'" ++ type_name j ++ u "' object has no attribute 'lower'"))
        end in
      match body with
      | Ok plan => if str_in plan VALID_PLANS then Some plan else None
      | Raise _ => None
      end
  | _ => None
  end.

Definition get_plan (w : world) : pystr :=
  let plan := str_strip (str_lower (default [] (CCM_PLAN w))) in
  if str_in plan VALID_PLANS then plan
  else
    match plan_of_file (config_file w) with
    | Some plan => plan
    | None =>
        match plan_of_file (last_used_file w) with
        | Some plan => plan
        | None => u "pro"
        end
    end.

(** ** Rendering (lines 247-480) *)

Definition print_error (title message : pystr) : io unit :=
  prints
    [ fstr [u "CCM "; [EM_DASH]; u " | color="; COLOR_GRAY; u " font="; TITLE_FONT;
         u " size="; str_of_int TITLE_SIZE; u " offset="; str_of_int TITLE_OFFSET];
      u "---";
      fstr [title; u " | color="; COLOR_RED; u " font="; MONO_FONT; u " size="; str_of_int BODY_SIZE];
      fstr [message; u " | color="; COLOR_DIM; u " font="; MONO_FONT; u " size="; str_of_int SMALL_SIZE] ].

Definition _print_footer : io unit :=
  prints
    [ fstr [u "Open Terminal Monitor | font="; MONO_FONT; u " size="; str_of_int BODY_SIZE;
         u " bash=ccm terminal=true"];
      fstr [u "Refresh | font="; MONO_FONT; u " size="; str_of_int BODY_SIZE; u " refresh=true"] ].

(** The loop of [_format_title]: the part appended for one key. *)
Definition title_part (token_pct cost_pct msg_pct cost : Q) (messages msg_limit : Z)
    (key : pystr) : list pystr :=
  if bool_decide (key = u "token_pct") then [fstr [u "TKN "; format_f 0 token_pct; u "%"]]
  else if bool_decide (key = u "cost") then [fstr [u "CST "; fmt_cost cost]]
  else if bool_decide (key = u "cost_pct") then [fstr [u "CST "; format_f 0 cost_pct; u "%"]]
  else if bool_decide (key = u "msg") then
    [fstr [u "MSG "; str_of_int messages; u "/"; str_of_int msg_limit]]
  else if bool_decide (key = u "msg_pct") then [fstr [u "MSG "; format_f 0 msg_pct; u "%"]]
  else [].

Definition _format_title (display : list pystr) (token_pct cost_pct msg_pct cost : Q)
    (messages msg_limit : Z) : pystr :=
  let parts := concat (map (title_part token_pct cost_pct msg_pct cost messages msg_limit) display) in
  match parts with
  | [] => u "CCM"
  | _ => str_join (u "  ") parts
  end.

Definition _print_display_submenu (script : pystr) (current_display : list pystr) : io unit :=
  print (fstr [u "Display | color="; COLOR_WHITE; u " font="; MONO_FONT; u " size="; str_of_int BODY_SIZE]) ;;;
  prints
    (map (fun '(key, label) =>
            let check := if str_in key current_display then CHECK_MARK :: u " " else u "   " in
            fstr [u "--"; check; label; u " | font="; MONO_FONT; u " size="; str_of_int SMALL_SIZE;
               u " bash="; script; u " ";
               u "param1=--toggle-display param2="; key; u " terminal=false refresh=true"])
         DISPLAY_METRICS).

Definition _print_plan_submenu (script : pystr) (current_plan : pystr) : io unit :=
  let label := default (str_upper current_plan) (PLAN_LABELS !! current_plan) in
  print (fstr [u "Plan: "; label; u " | color="; COLOR_WHITE; u " font="; MONO_FONT;
            u " size="; str_of_int BODY_SIZE]) ;;;
  prints
    (map (fun plan_key =>
            let plan_label := default [] (PLAN_LABELS !! plan_key) in
            let check := if bool_decide (plan_key = current_plan) then CHECK_MARK :: u " " else u "   " in
            fstr [u "--"; check; plan_label; u " | font="; MONO_FONT; u " size="; str_of_int SMALL_SIZE;
               u " bash="; script; u " ";
               u "param1=--set-plan param2="; plan_key; u " terminal=false refresh=true"])
         VALID_PLANS).

(** Lines 354-420 of [main]: the burn rate, the projection, the reset
    time, the model distribution and the limit notices of the active
    block.  They read the wall clock and the local time zone
    ([datetime.now], [astimezone]); the lines they print and the
    exception they may raise are left open. *)
Variable dashboard_tail : block -> io unit.

(** Lines 281-285: the display without any block. *)
Definition render_no_blocks : io unit :=
  prints
    [ fstr [u "CCM  Idle | color="; COLOR_GRAY; u " font="; TITLE_FONT; u " size=";
            str_of_int TITLE_SIZE; u " offset="; str_of_int TITLE_OFFSET];
      u "---";
      fstr [u "No usage data found | color="; COLOR_DIM; u " font="; MONO_FONT;
            u " size="; str_of_int BODY_SIZE];
      fstr [u "Start a Claude Code session to see metrics | color="; COLOR_DIM;
            u " font="; MONO_FONT; u " size="; str_of_int SMALL_SIZE] ].

(** Lines 291-302: the summary of the block [last]. *)
Definition render_last_session (last : block) : io unit :=
  let tokens := default 0 (totalTokens last) in
  let cost := default 0%Q (costUSD last) in
  let msgs := default 0 (sentMessagesCount last) in
  let dur := default 0%Q (durationMinutes last) in
  prints
    [ fstr [u "CCM  Idle | color="; COLOR_GRAY; u " font="; TITLE_FONT; u " size=";
            str_of_int TITLE_SIZE; u " offset="; str_of_int TITLE_OFFSET];
      u "---";
      fstr [u "Last Session | color="; COLOR_WHITE; u " font="; MONO_FONT;
            u " size="; str_of_int BODY_SIZE];
      fstr [u "  TKN  "; rjust 10 (fmt_number tokens); u "     MSG  "; str_of_int msgs;
            u " | font="; MONO_FONT; u " size="; str_of_int SMALL_SIZE; u " color="; COLOR_DIM];
      fstr [u "  CST  "; rjust 10 (fmt_cost cost); u "     DUR  "; fmt_duration dur;
            u " | font="; MONO_FONT; u " size="; str_of_int SMALL_SIZE; u " color="; COLOR_DIM];
      u "---" ] ;;;
  _print_footer.

(** [(v / limit * 100) if limit > 0 else 0] *)
Definition pct_of_limit (v limit : Q) : result Q :=
  if Qlt_bool 0 limit then
    try! q <- py_truediv v limit in
    Ok (q * 100)%Q
  else Ok 0%Q.

(** The line of the menu bar (line 329). *)
Definition title_line (title color : pystr) : pystr :=
  fstr [title; u " | color="; color; u " font="; TITLE_FONT; u " size="; str_of_int TITLE_SIZE;
        u " offset="; str_of_int TITLE_OFFSET].

(** The two lines of one resource (lines 342-350). *)
Definition resource_lines (label : pystr) (pct : Q) (used limit : pystr) : list pystr :=
  [ fstr [label; u " | color="; COLOR_WHITE; u " font="; MONO_FONT; u " size="; str_of_int BODY_SIZE];
    fstr [u "  "; bar_graph pct 16; u "  "; format_f 1 pct; u "% | color="; get_color pct;
          u " font="; MONO_FONT; u " size="; str_of_int SMALL_SIZE];
    fstr [u "  "; used; u " / "; limit; u " | color="; COLOR_DIM; u " font="; MONO_FONT;
          u " size="; str_of_int SMALL_SIZE] ].

(** Lines 306-423: the dashboard of the current window [block]. *)
Definition render_dashboard (an : analyzer) (w : world) (blocks : list block)
    (block : block) : io unit :=
  let plan := get_plan w in
  do! token_limit <- lift (get_token_limit an plan blocks) in
  do! cost_limit <- lift (get_cost_limit an plan) in
  do! msg_limit <- lift (get_message_limit an plan) in
  let tokens := default 0 (totalTokens block) in
  let cost := default 0%Q (costUSD block) in
  let messages := default 0 (sentMessagesCount block) in
  let duration := default 0%Q (durationMinutes block) in
  do! token_pct <- lift (pct_of_limit (inject_Z tokens) (inject_Z token_limit)) in
  do! cost_pct <- lift (pct_of_limit cost cost_limit) in
  do! msg_pct <- lift (pct_of_limit (inject_Z messages) (inject_Z msg_limit)) in
  let max_pct := py_max (py_max token_pct cost_pct) msg_pct in
  let color := get_color max_pct in
  let display := get_display (config_file w) in
  let title := _format_title display token_pct cost_pct msg_pct cost messages msg_limit in
  print (title_line title color) ;;;
  print (u "---") ;;;
  _print_plan_submenu (script_path w) plan ;;;
  _print_display_submenu (script_path w) display ;;;
  print (u "---") ;;;
  prints (resource_lines (u "Tokens") token_pct (fmt_number tokens) (fmt_number token_limit)) ;;;
  prints (resource_lines (u "Cost") cost_pct (fmt_cost cost) (fmt_cost cost_limit)) ;;;
  prints (resource_lines (u "Messages") msg_pct (fmt_number messages) (fmt_number msg_limit)) ;;;
  prints
    [ fstr [u "Duration | color="; COLOR_WHITE; u " font="; MONO_FONT; u " size="; str_of_int BODY_SIZE];
      fstr [u "  "; fmt_duration duration; u " | color="; COLOR_DIM; u " font="; MONO_FONT;
            u " size="; str_of_int SMALL_SIZE] ] ;;;
  dashboard_tail block ;;;
  print (u "---") ;;;
  _print_footer.

(** [b.get("isActive")] as a condition. *)
Definition is_active (b : block) : bool := default false (isActive b).

Definition main (an : analyzer) (w : world) : io unit :=
  match import_error an with
  | Some e =>
      match exn_cls e with
      | ImportError =>
          print_error (u "claude-monitor not installed") (u "Install: pip install claude-monitor") ;;;
          prints
            [ u "---";
              fstr [u "Install claude-monitor | font="; MONO_FONT; u " size="; str_of_int BODY_SIZE;
                    u " "; u "bash='pip' param1='install' param2='claude-monitor' terminal=true"] ]
      | _ => lift (Raise e)
      end
  | None =>
      match analyze_usage an with
      | Raise e => print_error (u "Error loading data") (take 80 (exn_msg e))
      | Ok result =>
          let blocks := default [] (blocks result) in
          match blocks with
          | [] => render_no_blocks
          | _ =>
              let active_blocks := filter (fun b => is_active b = true) blocks in
              match active_blocks with
              | [] =>
                  match last blocks with
                  | Some last => render_last_session last
                  | None => lift (Raise (Exn IndexError (u "list index out of range")))
                  end
              | block :: _ => render_dashboard an w blocks block
              end
          end
      end
  end.

(** ** The entry point (lines 483-498) *)

(** What an invocation leaves behind: the lines on standard output, the
    exit status (0 after [sys.exit(0)] or a normal end, 1 after an uncaught
    exception) and the files. *)
Record outcome := Outcome {
  printed : list pystr;
  exit_status : Z;
  final_world : world
}.

(** A command branch: the settings are written, nothing is printed. *)
Definition run_command (r : result file) (w : world) : outcome :=
  match r with
  | Ok cfg => Outcome [] 0 (set_config_file w cfg)
  | Raise _ => Outcome [] 1 w
  end.

Definition __main__ (argv : list pystr) (an : analyzer) (w : world) : outcome :=
  let render :=
    let '(out, r) := main an w in
    Outcome out (match r with Ok _ => 0 | Raise _ => 1 end) w in
  match argv with
  | _ :: arg1 :: arg2 :: _ =>
      if bool_decide (arg1 = u "--set-plan") then
        let chosen := str_strip (str_lower arg2) in
        if str_in chosen VALID_PLANS then run_command (set_plan chosen (config_file w)) w
        else Outcome [] 0 w
      else if bool_decide (arg1 = u "--toggle-display") then
        let chosen := str_strip (str_lower arg2) in
        if str_in chosen valid_keys then run_command (toggle_display chosen (config_file w)) w
        else Outcome [] 0 w
      else render
  | _ => render
  end.

End Script.

(** [str.lower] and [str.upper] on ASCII strings. *)
Definition ascii_lower (s : pystr) : pystr :=
  map (fun c => if ((65 <=? c) && (c <=? 90))%N then (c + 32)%N else c) s.
Definition ascii_upper (s : pystr) : pystr :=
  map (fun c => if ((97 <=? c) && (c <=? 122))%N then (c - 32)%N else c) s.

(** ** Observations used in the statements *)

(** The number of filled glyphs of a bar. *)
Definition filled_count (s : pystr) : nat := length (filter (fun c => c = FULL_BLOCK) s).

(** The value of the variable [filled] when [bar_graph] returns. *)
Definition bar_filled (pct : Q) (width : Z) : Z :=
  Z.min (py_int (pct / 100 * inject_Z width)) width.

(** The recognized identifiers among the entries of a stored list, in
    their order: the filtered stored value. *)
Fixpoint recognized (display : list json) : list pystr :=
  match display with
  | [] => []
  | JStr s :: ds => if str_in s valid_keys then s :: recognized ds else recognized ds
  | _ :: ds => recognized ds
  end.

(** The configuration file after a call that was to write it: what the
    call wrote, or the file as it was when the call raised before the
    write. *)
Definition config_after (r : result file) (cfg : file) : file :=
  match r with
  | Ok cfg' => cfg'
  | Raise _ => cfg
  end.

(** The file holds no document, or one that is a JSON object. *)
Definition object_or_absent (cfg : file) : Prop :=
  match cfg with
  | Missing | Unreadable | Parsed (JObj _) => True
  | Parsed _ => False
  end.

(** The list that [toggle_display] stores when the enabled list is
    [current]. *)
Definition toggled (metric : pystr) (current : list pystr) : list pystr :=
  let current :=
    if str_in metric current then list_remove_first metric current
    else current ++ [metric] in
  match current with
  | [] => DEFAULT_DISPLAY
  | _ => current
  end.

(** The configuration file after one [toggle_display(metric)]. *)
Definition toggle_then (metric : pystr) (cfg : file) : file :=
  config_after (toggle_display metric cfg) cfg.

(** The value stored under [display], when the document is an object. *)
Definition stored_display (cfg : file) : option json :=
  match cfg with
  | Parsed (JObj m) => m !! u "display"
  | _ => None
  end.


(** The percentage of a limit as a number: the value that [pct_of_limit]
    returns. *)
Definition pct_value (v limit : Q) : Q :=
  if Qlt_bool 0 limit then (v / limit * 100)%Q else 0%Q.

(** ** Sample inputs *)

Definition sample_script : pystr := u "/plugins/claude-monitor.30s.py".

Definition sample_block_old : block :=
  Block (Some 1200) (Some (3 # 10)) (Some 4) (Some 35%Q) (Some false) ∅.

Definition sample_block : block :=
  Block (Some 50000) (Some 5%Q) (Some 20) (Some 90%Q) (Some true) ∅.

(** An analyzer that imports, returns the blocks [bs] and has the limits
    100000 tokens, 10.00 dollars and 250 messages for every plan. *)
Definition sample_analyzer (bs : list block) : analyzer :=
  Analyzer None (Ok (Usage (Some bs)))
    (fun _ _ => Ok 100000) (fun _ => Ok 10%Q) (fun _ => Ok 250).

Definition sample_world (cfg : file) : world := World None cfg Missing sample_script.

(** A tail of the dashboard that prints nothing. *)
Definition no_tail (b : block) : io unit := prints [].

(** ** Observations of the rendering *)

(** The three labels of the parts of a title. *)
Definition TITLE_LABELS : list pystr := [u "TKN "; u "CST "; u "MSG "].

(** A line of a submenu carries the check mark. *)
Definition is_checked (line : pystr) : Prop := line !! 2%nat = Some CHECK_MARK.

(** ** The model distribution (lines 382-402 of [main]) *)

(** A value of the dict [perModelStats]: a dict, with its [totalTokens]
    when it has the key, or a value of another type. *)
Inductive model_stats :=
| StatsDict (total : option Z)
| StatsOther.

(** The key of the sort:
    [x[1].get("totalTokens", 0) if isinstance(x[1], dict) else 0]. *)
Definition model_key (item : pystr * model_stats) : Z :=
  match snd item with
  | StatsDict total => default 0 total
  | StatsOther => 0
  end.

(** [sorted(items, key=model_key, reverse=True)]: by decreasing key, the
    items of equal key in the order they had. *)
Fixpoint insert_desc (x : pystr * model_stats) (l : list (pystr * model_stats))
    : list (pystr * model_stats) :=
  match l with
  | [] => [x]
  | y :: ys => if model_key x <? model_key y then y :: insert_desc x ys else x :: y :: ys
  end.

Definition sorted_desc (items : list (pystr * model_stats)) : list (pystr * model_stats) :=
  foldr insert_desc [] items.

(** U+2026 HORIZONTAL ELLIPSIS. *)
Definition ELLIPSIS : N := 8230.

(** The body of the loop for a model whose value is a dict. *)
Definition print_model (tokens : Z) (model_name : pystr) (total : option Z) : io unit :=
  let model_tokens := default 0 total in
  do! pct <- lift (pct_of_limit (inject_Z model_tokens) (inject_Z tokens)) in
  let short_name :=
    if (22 <? length model_name)%nat then take 22 model_name ++ [ELLIPSIS] else model_name in
  let m_color := if Qlt_bool 50 pct then get_color pct else COLOR_DIM in
  print (fstr [u "  "; ljust 24 short_name; u " "; rjust 3 (format_f 0 pct); u "% | color=";
               m_color; u " font="; MONO_FONT; u " size="; str_of_int SMALL_SIZE]).

(** [for x in l: body(x)] *)
Definition io_for {A : Type} (l : list A) (body : A -> io unit) : io unit :=
  foldr (fun x k => body x ;;; k) (prints []) l.

(** The block of [main] that prints the share of each model, for the
    items [per_model] of [perModelStats] in the order of the dict and the
    tokens of the current block. *)
Definition print_model_distribution (per_model : list (pystr * model_stats)) (tokens : Z)
    : io unit :=
  match per_model with
  | [] => prints []
  | _ =>
      if 0 <? tokens then
        print (u "---") ;;;
        print (fstr [u "Models | color="; COLOR_WHITE; u " font="; MONO_FONT; u " size=";
                     str_of_int BODY_SIZE]) ;;;
        io_for (sorted_desc per_model)
          (fun '(model_name, stats) =>
             match stats with
             | StatsDict total => print_model tokens model_name total
             | StatsOther => prints []
             end)
      else prints []
  end.

(** The models whose value is a dict, with their tokens. *)
Definition dict_models (items : list (pystr * model_stats)) : list (pystr * Z) :=
  omap (fun item => match snd item with
                    | StatsDict total => Some (fst item, default 0 total)
                    | StatsOther => None
                    end) items.

(** The line printed for a model, when the tokens of the block are above
    zero. *)
Definition model_line (tokens : Z) (row : pystr * Z) : pystr :=
  let pct := pct_value (inject_Z (snd row)) (inject_Z tokens) in
  let short_name :=
    if (22 <? length (fst row))%nat then take 22 (fst row) ++ [ELLIPSIS] else fst row in
  let m_color := if Qlt_bool 50 pct then get_color pct else COLOR_DIM in
  fstr [u "  "; ljust 24 short_name; u " "; rjust 3 (format_f 0 pct); u "% | color=";
        m_color; u " font="; MONO_FONT; u " size="; str_of_int SMALL_SIZE].

(** ** The path set-up (lines 52-75) *)

(** [a < b] on strings: by code points, a proper prefix first.  Paths
    with the same parent and the same last component compare as the
    names between them do. *)
Fixpoint str_lt (a b : pystr) : bool :=
  match a, b with
  | _, [] => false
  | [], _ :: _ => true
  | x :: xs, y :: ys =>
      if (x <? y)%N then true else if (y <? x)%N then false else str_lt xs ys
  end.

(** What [_setup_uv_tool_path] finds: the outcome of [import
    claude_monitor] ([None] when it succeeds), whether the directory of
    the tool and its [lib] exist, the text of the path of [lib], and the
    matches of [python*/site-packages] under [lib] in the order of the
    glob, each with the name of its [python*] directory and whether the
    match is a directory. *)
Record install := Install {
  import_outcome : option exn;
  uv_tool_dir_exists : bool;
  lib_dir_exists : bool;
  lib_dir : pystr;
  site_packages : list (pystr * bool)
}.

(** [sorted(matches, reverse=True)]: by decreasing name, equal names in
    the order they had. *)
Fixpoint insert_path (x : pystr * bool) (l : list (pystr * bool)) : list (pystr * bool) :=
  match l with
  | [] => [x]
  | y :: ys => if str_lt (fst x) (fst y) then y :: insert_path x ys else x :: y :: ys
  end.

Definition sorted_paths (l : list (pystr * bool)) : list (pystr * bool) :=
  foldr insert_path [] l.

(** The loop: the first match that is a directory, if any. *)
Fixpoint first_dir (l : list (pystr * bool)) : option pystr :=
  match l with
  | [] => None
  | (name, is_dir) :: rest => if is_dir then Some name else first_dir rest
  end.

(** [sys.path] after the set-up. *)
Definition _setup_uv_tool_path (inst : install) (sys_path : list pystr) : result (list pystr) :=
  match import_outcome inst with
  | None => Ok sys_path
  | Some e =>
      match exn_cls e with
      | ImportError =>
          if negb (uv_tool_dir_exists inst) then Ok sys_path
          else if negb (lib_dir_exists inst) then Ok sys_path
          else
            match first_dir (sorted_paths (site_packages inst)) with
            | Some name => Ok ((lib_dir inst ++ u "/" ++ name ++ u "/site-packages") :: sys_path)
            | None => Ok sys_path
            end
      | _ => Raise e
      end
  end.

(** The number that a text of digits and commas shows: the digits read
    from the left, the commas skipped. *)
Definition digits_value (s : pystr) : Z :=
  fold_left (fun acc c => if (c =? 44)%N then acc else acc * 10 + (Z.of_N c - 48)) s 0.

(** A value that [hash] refuses: a list or a dict. *)
Definition unhashable (j : json) : Prop :=
  match j with
  | JList _ | JObj _ => True
  | _ => False
  end.

(** * Properties *)

(** ** Numbers and strings *)

Lemma Qlt_bool_iff (a b : Q) : Qlt_bool a b = true <-> (a < b)%Q.
Proof.
  unfold Qlt_bool. rewrite negb_true_iff. split.
  - intros H. apply Qnot_le_lt. intros Hle. apply Qle_bool_iff in Hle. congruence.
  - intros H. destruct (Qle_bool b a) eqn:E; [|reflexivity].
    apply Qle_bool_iff in E. exfalso. exact (Qlt_not_le _ _ H E).
Qed.

Lemma Qle_bool_false_iff (a b : Q) : Qle_bool a b = false <-> (b < a)%Q.
Proof.
  rewrite <- Qlt_bool_iff. unfold Qlt_bool. rewrite negb_true_iff. reflexivity.
Qed.

Lemma Qlt_bool_false_iff (a b : Q) : Qlt_bool a b = false <-> (b <= a)%Q.
Proof.
  unfold Qlt_bool. rewrite negb_false_iff. apply Qle_bool_iff.
Qed.

(** On a non-negative float [int()] is the floor. *)
Lemma py_int_nonneg (x : Q) : (0 <= x)%Q -> py_int x = Qfloor x.
Proof.
  destruct x as [n d]. unfold Qle, py_int, Qfloor. simpl. intros H.
  apply Z.quot_div_nonneg; lia.
Qed.



Lemma str_mul_single (c : N) (n : Z) : str_mul [c] n = replicate (Z.to_nat n) c.
Proof.
  unfold str_mul. induction (Z.to_nat n) as [|k IH]; simpl; [reflexivity|]. now rewrite IH.
Qed.

Lemma filled_count_bar (a b : nat) :
  filled_count (replicate a FULL_BLOCK ++ replicate b LIGHT_SHADE) = a.
Proof.
  unfold filled_count. rewrite filter_app, length_app.
  assert (Ha : filter (fun c => c = FULL_BLOCK) (replicate a FULL_BLOCK) = replicate a FULL_BLOCK).
  { induction a as [|a IH]; simpl; [reflexivity|].
    rewrite filter_cons_True by reflexivity. now rewrite IH. }
  assert (Hb : filter (fun c => c = FULL_BLOCK) (replicate b LIGHT_SHADE) = []).
  { induction b as [|b IH]; simpl; [reflexivity|].
    rewrite filter_cons_False by discriminate. exact IH. }
  rewrite Ha, Hb, length_replicate. simpl. lia.
Qed.

Lemma bar_graph_unfold (pct : Q) (width : Z) :
  bar_graph pct width =
  replicate (Z.to_nat (bar_filled pct width)) FULL_BLOCK
  ++ replicate (Z.to_nat (width - bar_filled pct width)) LIGHT_SHADE.
Proof. unfold bar_graph, bar_filled. now rewrite !str_mul_single. Qed.


(** ** The formatter *)

Example fmt_example_1 : fmt_cost 5 = u "$5.00". Proof. reflexivity. Qed.
Example fmt_example_2 : fmt_cost (1 # 8) = u "$0.12". Proof. reflexivity. Qed.
Example fmt_example_3 : fmt_cost (3 # 8) = u "$0.38". Proof. reflexivity. Qed.
Example fmt_example_4 : fmt_cost (-1 # 1024) = u "$-0.00". Proof. reflexivity. Qed.
Example fmt_example_5 : fmt_number 1234567 = u "1,234,567". Proof. reflexivity. Qed.
Example fmt_example_6 : fmt_number 1000 = u "1,000". Proof. reflexivity. Qed.
Example fmt_example_7 : fmt_number (-12) = u "-12". Proof. reflexivity. Qed.
Example fmt_example_8 : fmt_duration (1#2) = u "<1m". Proof. reflexivity. Qed.
Example fmt_example_9 : fmt_duration 45 = u "45m". Proof. reflexivity. Qed.
Example fmt_example_10 : fmt_duration 125 = u "2h 5m". Proof. reflexivity. Qed.
Example fmt_example_11 : fmt_pct 1 3 = Ok (u "33.3%"). Proof. reflexivity. Qed.
Example fmt_example_12 : format_f 0 (5#2) = u "2". Proof. reflexivity. Qed.
Example fmt_example_13 : format_f 0 (7#2) = u "4". Proof. reflexivity. Qed.
Example bar_graph_example :
  bar_graph 55 10 = replicate 5 FULL_BLOCK ++ replicate 5 LIGHT_SHADE.
Proof. reflexivity. Qed.

(** C5. [get_color] returns one of four distinct colors, chosen by the
    thresholds 95, 80 and 50 with inclusive lower bounds: red from 95,
    orange from 80 below 95, yellow from 50 below 80, green below 50; the
    values 50, 80 and 95 themselves fall in the higher tier. *)
Theorem get_color_thresholds (pct : Q) :
  ((95 <= pct)%Q -> get_color pct = COLOR_RED) /\
  ((80 <= pct)%Q -> (pct < 95)%Q -> get_color pct = COLOR_ORANGE) /\
  ((50 <= pct)%Q -> (pct < 80)%Q -> get_color pct = COLOR_YELLOW) /\
  ((pct < 50)%Q -> get_color pct = COLOR_GREEN) /\
  get_color pct ∈ [COLOR_RED; COLOR_ORANGE; COLOR_YELLOW; COLOR_GREEN] /\
  NoDup [COLOR_RED; COLOR_ORANGE; COLOR_YELLOW; COLOR_GREEN] /\
  get_color 50 = COLOR_YELLOW /\ get_color 80 = COLOR_ORANGE /\ get_color 95 = COLOR_RED.
Proof.
  unfold get_color.
  repeat split.
  - intros H. apply Qle_bool_iff in H. now rewrite H.
  - intros H1 H2. apply Qle_bool_false_iff in H2. apply Qle_bool_iff in H1.
    now rewrite H2, H1.
  - intros H1 H2. apply Qle_bool_iff in H1.
    assert (H3 : (pct < 95)%Q) by (eapply Qlt_trans; [exact H2 | reflexivity]).
    apply Qle_bool_false_iff in H2, H3. now rewrite H3, H2, H1.
  - intros H1.
    assert (H2 : (pct < 80)%Q) by (eapply Qlt_trans; [exact H1 | reflexivity]).
    assert (H3 : (pct < 95)%Q) by (eapply Qlt_trans; [exact H1 | reflexivity]).
    apply Qle_bool_false_iff in H1, H2, H3. now rewrite H3, H2, H1.
  - destruct (Qle_bool 95 pct); [set_solver|].
    destruct (Qle_bool 80 pct); [set_solver|].
    destruct (Qle_bool 50 pct); set_solver.
  - compute_done.
Qed.

Lemma get_color_thresholds_witness :
  get_color 97 = COLOR_RED /\ get_color (171 # 2) = COLOR_ORANGE /\
  get_color 64 = COLOR_YELLOW /\ get_color (499 # 10) = COLOR_GREEN.
Proof.
  destruct (get_color_thresholds 97) as (H1 & _).
  destruct (get_color_thresholds (171 # 2)) as (_ & H2 & _).
  destruct (get_color_thresholds 64) as (_ & _ & H3 & _).
  destruct (get_color_thresholds (499 # 10)) as (_ & _ & _ & H4 & _).
  split; [apply H1; discriminate|].
  split; [apply H2; [discriminate | reflexivity]|].
  split; [apply H3; [discriminate | reflexivity]|].
  apply H4; reflexivity.
Defined.





(** With one decimal, [format] ends in a point and a single digit. *)
Lemma format_f_one_decimal (x : Q) :
  exists (body : pystr) (d : Z), 0 <= d <= 9 /\ format_f 1 x = body ++ u "." ++ [digit d].
Proof.
  unfold format_f.
  set (n := round_half_even _).
  exists ((if Qlt_bool x 0 then u "-" else []) ++ str_of_nonneg (n / 10 ^ Z.of_nat 1)), (n mod 10).
  split.
  - pose proof (Z.mod_pos_bound n 10). lia.
  - simpl frac_digits. now rewrite <- app_assoc.
Qed.



(** ** The settings store *)

Lemma str_in_true (x : pystr) (xs : list pystr) : str_in x xs = true <-> x ∈ xs.
Proof. unfold str_in. apply bool_decide_eq_true. Qed.

Lemma str_in_false (x : pystr) (xs : list pystr) : str_in x xs = false <-> x ∉ xs.
Proof. unfold str_in. apply bool_decide_eq_false. Qed.

Lemma filter_valid_recognized (l : list json) (r : list pystr) :
  filter_valid l = Ok r -> r = recognized l.
Proof.
  revert r. induction l as [|d ds IH]; intros r H; simpl in *.
  - congruence.
  - destruct d; try (now apply IH); try discriminate.
    destruct (filter_valid ds) as [rest|e]; simpl in H; [|discriminate].
    rewrite <- (IH rest eq_refl). congruence.
Qed.

Lemma recognized_valid (l : list json) : Forall (fun k => k ∈ valid_keys) (recognized l).
Proof.
  induction l as [|d ds IH]; simpl; [constructor|].
  destruct d; try exact IH.
  destruct (str_in s valid_keys) eqn:E; [|exact IH].
  constructor; [now apply str_in_true | exact IH].
Qed.

Lemma filter_valid_strings (l : list pystr) :
  Forall (fun k => k ∈ valid_keys) l -> filter_valid (map JStr l) = Ok l.
Proof.
  induction 1 as [|x xs Hx _ IH]; simpl; [reflexivity|].
  rewrite IH. simpl. apply str_in_true in Hx. now rewrite Hx.
Qed.

Lemma default_display_valid : Forall (fun k => k ∈ valid_keys) DEFAULT_DISPLAY.
Proof. repeat constructor; compute_done. Qed.

(** What [get_display] returns: the filtered stored list when the
    document is an object whose [display] is a list without unhashable
    entry and with a recognized one, the default list otherwise. *)
Lemma get_display_cases (cfg : file) :
  get_display cfg = DEFAULT_DISPLAY \/
  exists m l, cfg = Parsed (JObj m) /\ m !! u "display" = Some (JList l) /\
              filter_valid l = Ok (recognized l) /\
              recognized l <> [] /\ get_display cfg = recognized l.
Proof.
  destruct cfg as [| |config]; [now left | now left|].
  unfold get_display, get_display_try.
  destruct config; try (now left). simpl.
  destruct (m !! u "display") as [[]|] eqn:E; try (now left).
  destruct (filter_valid l) as [r|e] eqn:F; simpl; [|now left].
  pose proof (filter_valid_recognized _ _ F) as ->.
  destruct (recognized l) eqn:R; [now left|].
  right. exists m, l. rewrite R. repeat split; auto; discriminate.
Qed.

Lemma get_display_valid (cfg : file) : Forall (fun k => k ∈ valid_keys) (get_display cfg).
Proof.
  destruct (get_display_cases cfg) as [->|(m & l & _ & _ & _ & _ & ->)].
  - apply default_display_valid.
  - apply recognized_valid.
Qed.

Lemma get_display_not_nil (cfg : file) : get_display cfg <> [].
Proof.
  destruct (get_display_cases cfg) as [->|(m & l & _ & _ & _ & Hne & ->)].
  - discriminate.
  - exact Hne.
Qed.

(** C2. Whatever the settings file holds, [get_display] returns a
    non-empty list of recognized identifiers; it returns the default list
    [token_pct, cost] when the file is missing or cannot be parsed, when the
    document has no list under [display], and when the filtered stored
    list is empty, as for the stored lists [[]] and [["bogus"]]. *)
Theorem get_display_nonempty (cfg : file) :
  get_display cfg <> [] /\
  Forall (fun k => k ∈ valid_keys) (get_display cfg) /\
  (cfg = Missing \/ cfg = Unreadable -> get_display cfg = DEFAULT_DISPLAY) /\
  (forall m l, cfg = Parsed (JObj m) -> m !! u "display" = Some (JList l) ->
     recognized l = [] -> get_display cfg = DEFAULT_DISPLAY) /\
  (forall m, cfg = Parsed (JObj m) -> (forall l, m !! u "display" <> Some (JList l)) ->
     get_display cfg = DEFAULT_DISPLAY) /\
  (forall j, cfg = Parsed j -> (forall m, j <> JObj m) -> get_display cfg = DEFAULT_DISPLAY) /\
  DEFAULT_DISPLAY = [u "token_pct"; u "cost"] /\
  get_display (Parsed (JObj {[ u "display" := JList [] ]})) = DEFAULT_DISPLAY /\
  get_display (Parsed (JObj {[ u "display" := JList [JStr (u "bogus")] ]})) = DEFAULT_DISPLAY.
Proof.
  split; [apply get_display_not_nil|].
  split; [apply get_display_valid|].
  split; [intros [-> | ->]; reflexivity|].
  split.
  { intros m l -> Hl Hr.
    destruct (get_display_cases (Parsed (JObj m))) as [H|(m' & l' & Hc & Hl' & _ & Hne & _)];
      [exact H|].
    injection Hc as <-. rewrite Hl in Hl'. injection Hl' as <-. contradiction. }
  split.
  { intros m -> Hl.
    destruct (get_display_cases (Parsed (JObj m))) as [H|(m' & l' & Hc & Hl' & _)]; [exact H|].
    injection Hc as <-. now apply Hl in Hl'. }
  split.
  { intros j -> Hj.
    destruct (get_display_cases (Parsed j)) as [H|(m' & l' & Hc & _)]; [exact H|].
    injection Hc as ->. now destruct (Hj m'). }
  split; [reflexivity|]. split; vm_compute; reflexivity.
Qed.

Lemma get_display_nonempty_witness :
  get_display Missing = DEFAULT_DISPLAY /\
  get_display (Parsed (JObj {[ u "display" := JList [JInt 3; JStr (u "bogus")] ]})) = DEFAULT_DISPLAY /\
  get_display (Parsed (JObj {[ u "plan" := JStr (u "pro") ]})) = DEFAULT_DISPLAY /\
  get_display (Parsed (JList [])) = DEFAULT_DISPLAY.
Proof.
  destruct (get_display_nonempty Missing) as (_ & _ & H1 & _).
  destruct (get_display_nonempty
              (Parsed (JObj {[ u "display" := JList [JInt 3; JStr (u "bogus")] ]})))
    as (_ & _ & _ & H2 & _).
  destruct (get_display_nonempty (Parsed (JObj {[ u "plan" := JStr (u "pro") ]})))
    as (_ & _ & _ & _ & H3 & _).
  destruct (get_display_nonempty (Parsed (JList []))) as (_ & _ & _ & _ & _ & H4 & _).
  split; [apply H1; now left|].
  split; [eapply H2; [reflexivity | vm_compute; reflexivity | reflexivity]|].
  split; [eapply H3; [reflexivity | intros l; vm_compute; discriminate]|].
  eapply H4; [reflexivity | intros m; discriminate].
Defined.



(** [_save_config] returns on an absent file and on an object. *)
Lemma save_display_get (cfg : file) (l : list pystr) :
  object_or_absent cfg -> l <> [] -> Forall (fun k => k ∈ valid_keys) l ->
  exists cfg', _save_config (u "display") (JList (map JStr l)) cfg = Ok cfg' /\
               object_or_absent cfg' /\ get_display cfg' = l.
Proof.
  intros Hc Hne Hv.
  assert (Hget : forall m : gmap pystr json,
             get_display (Parsed (JObj (<[u "display" := JList (map JStr l)]> m))) = l).
  { intros m. unfold get_display, get_display_try. simpl.
    rewrite lookup_insert_eq. rewrite (filter_valid_strings _ Hv). simpl.
    destruct l; [contradiction | reflexivity]. }
  destruct cfg as [| |[]]; simpl in Hc; try contradiction;
    eexists; (split; [reflexivity|]); (split; [exact I|]); apply Hget.
Qed.

Lemma list_remove_first_valid (P : pystr -> Prop) (x : pystr) (l : list pystr) :
  Forall P l -> Forall P (list_remove_first x l).
Proof.
  induction 1 as [|y ys Hy Hys IH]; simpl; [constructor|].
  case_bool_decide; [exact Hys | now constructor].
Qed.

Lemma toggled_not_nil (m : pystr) (l : list pystr) : toggled m l <> [].
Proof.
  unfold toggled. destruct (if str_in m l then _ else _); discriminate.
Qed.

Lemma toggled_valid (m : pystr) (l : list pystr) :
  m ∈ valid_keys -> Forall (fun k => k ∈ valid_keys) l ->
  Forall (fun k => k ∈ valid_keys) (toggled m l).
Proof.
  intros Hm Hl. unfold toggled.
  assert (H : Forall (fun k => k ∈ valid_keys)
                (if str_in m l then list_remove_first m l else l ++ [m])).
  { destruct (str_in m l).
    - now apply list_remove_first_valid.
    - apply Forall_app. split; [exact Hl | constructor; [exact Hm | constructor]]. }
  destruct (if str_in m l then _ else _); [apply default_display_valid | exact H].
Qed.

(** One toggle of a recognized metric on a file that is absent or holds
    an object: the call returns, and the enabled list becomes [toggled]. *)
Lemma toggle_display_step (m : pystr) (cfg : file) :
  m ∈ valid_keys -> object_or_absent cfg ->
  exists cfg', toggle_display m cfg = Ok cfg' /\ object_or_absent cfg' /\
               get_display cfg' = toggled m (get_display cfg).
Proof.
  intros Hm Hc.
  destruct (save_display_get cfg (toggled m (get_display cfg)) Hc)
    as (cfg' & Hs & Ho & Hg).
  - apply toggled_not_nil.
  - apply toggled_valid; [exact Hm | apply get_display_valid].
  - exists cfg'. split; [exact Hs|]. split; [exact Ho | exact Hg].
Qed.


(** *** Toggling, on lists *)



Lemma list_remove_first_subset (m x : pystr) (l : list pystr) :
  x ∈ list_remove_first m l -> x ∈ l.
Proof.
  induction l as [|y ys IH]; simpl; [trivial|].
  case_bool_decide as E; intros Hx; [now right|].
  apply elem_of_cons in Hx as [->|Hx]; [left | right; auto].
Qed.






(** *** Toggling, on the file *)


Lemma toggle_then_twice (m : pystr) (cfg : file) :
  m ∈ valid_keys -> object_or_absent cfg ->
  get_display (toggle_then m cfg) = toggled m (get_display cfg) /\
  get_display (toggle_then m (toggle_then m cfg)) = toggled m (toggled m (get_display cfg)).
Proof.
  intros Hm Hc. unfold toggle_then.
  destruct (toggle_display_step m cfg Hm Hc) as (cfg1 & -> & Hc1 & Hg1). simpl.
  destruct (toggle_display_step m cfg1 Hm Hc1) as (cfg2 & -> & _ & Hg2). simpl.
  split; [exact Hg1 | now rewrite Hg2, Hg1].
Qed.










(** ** The render pipeline *)

Lemma Qle_bool_comp (a a' b b' : Q) :
  (a == a')%Q -> (b == b')%Q -> Qle_bool a b = Qle_bool a' b'.
Proof.
  intros Ha Hb.
  destruct (Qle_bool a b) eqn:E1; destruct (Qle_bool a' b') eqn:E2; try reflexivity.
  - apply Qle_bool_iff in E1. rewrite Ha, Hb in E1. apply Qle_bool_iff in E1. congruence.
  - apply Qle_bool_iff in E2. rewrite <- Ha, <- Hb in E2. apply Qle_bool_iff in E2. congruence.
Qed.

Lemma Qlt_bool_comp (a a' b b' : Q) :
  (a == a')%Q -> (b == b')%Q -> Qlt_bool a b = Qlt_bool a' b'.
Proof. intros Ha Hb. unfold Qlt_bool. now rewrite (Qle_bool_comp b b' a a'). Qed.

Lemma round_half_even_comp (x y : Q) : (x == y)%Q -> round_half_even x = round_half_even y.
Proof.
  intros H. unfold round_half_even. rewrite (Qfloor_comp x y H).
  assert (Hr : (x - inject_Z (Qfloor y) == y - inject_Z (Qfloor y))%Q) by now rewrite H.
  rewrite (Qlt_bool_comp _ _ _ _ Hr (Qeq_refl _)).
  now rewrite (Qlt_bool_comp _ _ _ _ (Qeq_refl (1 # 2)) Hr).
Qed.

(** The text of a float depends on its value alone. *)
Lemma format_f_comp (prec : nat) (x y : Q) : (x == y)%Q -> format_f prec x = format_f prec y.
Proof.
  intros H. unfold format_f.
  assert (Hs : (Qabs x * inject_Z (10 ^ Z.of_nat prec) == Qabs y * inject_Z (10 ^ Z.of_nat prec))%Q)
    by now rewrite H.
  rewrite (round_half_even_comp _ _ Hs).
  now rewrite (Qlt_bool_comp x y 0 0 H (Qeq_refl 0)).
Qed.

Lemma get_color_comp (x y : Q) : (x == y)%Q -> get_color x = get_color y.
Proof.
  intros H. unfold get_color.
  now rewrite !(fun c => Qle_bool_comp c c x y (Qeq_refl c) H).
Qed.

Lemma py_max_cases (a b : Q) :
  (py_max a b = a /\ (b <= a)%Q) \/ (py_max a b = b /\ (a < b)%Q).
Proof.
  unfold py_max. destruct (Qlt_bool a b) eqn:E.
  - right. split; [reflexivity | now apply Qlt_bool_iff].
  - left. split; [reflexivity | now apply Qlt_bool_false_iff].
Qed.

(** [pct_of_limit] returns: the division is guarded by the comparison. *)
Lemma pct_of_limit_value (v limit : Q) : pct_of_limit v limit = Ok (pct_value v limit).
Proof.
  unfold pct_of_limit, pct_value, py_truediv.
  destruct (Qlt_bool 0 limit) eqn:E; [|reflexivity].
  destruct (Qeq_bool limit 0) eqn:E0; [|reflexivity].
  apply Qlt_bool_iff in E. apply Qeq_bool_iff in E0. rewrite E0 in E. discriminate.
Qed.

Lemma io_bind_print {B : Type} (line : pystr) (k : unit -> io B) :
  io_bind (print line) k = (line :: fst (k tt), snd (k tt)).
Proof. unfold io_bind, print. now destruct (k tt). Qed.

Lemma io_bind_lift_ok {A B : Type} (a : A) (k : A -> io B) : io_bind (lift (Ok a)) k = k a.
Proof. unfold io_bind, lift. now destruct (k a). Qed.

Lemma io_bind_lift_raise {A B : Type} (e : exn) (k : A -> io B) :
  io_bind (lift (Raise e)) k = ([], Raise e).
Proof. reflexivity. Qed.

Section Render.

Variable str_lower : pystr -> pystr.
Variable str_upper : pystr -> pystr.
Variable dashboard_tail : block -> io unit.

Lemma filter_active_first (pre post : list block) (b : block) :
  Forall (fun x => is_active x = false) pre -> is_active b = true ->
  filter (fun x => is_active x = true) (pre ++ b :: post)
  = b :: filter (fun x => is_active x = true) post.
Proof.
  intros Hpre Hb. rewrite filter_app, filter_cons_True by exact Hb.
  replace (filter (fun x => is_active x = true) pre) with (@nil block); [reflexivity|].
  induction Hpre as [|x xs Hx _ IH]; [reflexivity|].
  rewrite filter_cons_False by congruence. exact IH.
Qed.





(** Otherwise [main] renders the dashboard of the first block flagged
    active. *)
Lemma main_first_active_block (an : analyzer) (w : world) (us : usage)
    (pre post : list block) (b : block) :
  import_error an = None -> analyze_usage an = Ok us ->
  default [] (blocks us) = pre ++ b :: post ->
  Forall (fun x => is_active x = false) pre -> is_active b = true ->
  main str_lower str_upper dashboard_tail an w
  = render_dashboard str_lower str_upper dashboard_tail an w (pre ++ b :: post) b.
Proof.
  intros Hi Ha Hbs Hpre Hb. unfold main. rewrite Hi, Ha, Hbs.
  rewrite (filter_active_first pre post b Hpre Hb).
  destruct (pre ++ b :: post) eqn:E; [now destruct pre | reflexivity].
Qed.


Lemma format_title_default (token_pct cost_pct msg_pct cost : Q) (messages msg_limit : Z) :
  _format_title DEFAULT_DISPLAY token_pct cost_pct msg_pct cost messages msg_limit
  = u "TKN " ++ format_f 0 token_pct ++ u "%  CST $" ++ format_f 2 cost.
Proof.
  unfold _format_title, DEFAULT_DISPLAY. cbn [map concat app].
  unfold title_part.
  rewrite (bool_decide_eq_true_2 (u "token_pct" = u "token_pct")) by reflexivity.
  rewrite (bool_decide_eq_false_2 (u "cost" = u "token_pct")) by discriminate.
  rewrite (bool_decide_eq_true_2 (u "cost" = u "cost")) by reflexivity.
  cbn [app str_join]. unfold fstr, fmt_cost. cbn [concat].
  rewrite !app_nil_r, <- !app_assoc. reflexivity.
Qed.

(** C7. When the first block flagged active has 50000 tokens and a cost
    of 5.00, the plan has the token limit 100000 and the cost limit 10.00,
    the message percentage is at most 50 and the enabled metrics are the
    default ones, the first line printed is the title with the parts
    TKN 50% and CST $5.00, in the color of the tier that starts at 50. *)
Theorem main_title_end_to_end (an : analyzer) (w : world) (us : usage)
    (pre post : list block) (b : block) (cost cost_limit : Q) (msg_limit : Z) :
  import_error an = None -> analyze_usage an = Ok us ->
  default [] (blocks us) = pre ++ b :: post ->
  Forall (fun x => is_active x = false) pre -> is_active b = true ->
  totalTokens b = Some 50000 ->
  get_token_limit an (get_plan str_lower w) (pre ++ b :: post) = Ok 100000 ->
  costUSD b = Some cost -> (cost == 5)%Q ->
  get_cost_limit an (get_plan str_lower w) = Ok cost_limit -> (cost_limit == 10)%Q ->
  get_message_limit an (get_plan str_lower w) = Ok msg_limit ->
  (pct_value (inject_Z (default 0%Z (sentMessagesCount b))) (inject_Z msg_limit) <= 50)%Q ->
  get_display (config_file w) = DEFAULT_DISPLAY ->
  exists (rest : list pystr) (r : result unit),
    main str_lower str_upper dashboard_tail an w
    = (title_line (u "TKN 50%  CST $5.00") (get_color 50) :: rest, r)
    /\ title_line (u "TKN 50%  CST $5.00") (get_color 50)
       = u "TKN 50%  CST $5.00 | color=#FFD95C font=SFMono-Regular size=12 offset=2".
Proof.
  intros Hi Ha Hbs Hpre Hb Htok Htl Hcost Hc5 Hcl Hc10 Hml Hmsg Hdisp.
  rewrite (main_first_active_block an w us pre post b Hi Ha Hbs Hpre Hb).
  unfold render_dashboard.
  rewrite Htl, Hcl, Hml, !io_bind_lift_ok, Htok, Hcost, Hdisp.
  cbn [from_option]. unfold id. rewrite !pct_of_limit_value, !io_bind_lift_ok.
  set (tp := pct_value (inject_Z 50000) (inject_Z 100000)).
  set (cp := pct_value cost cost_limit).
  set (mp := pct_value _ (inject_Z msg_limit)) in *.
  assert (Htp : (tp == 50)%Q) by reflexivity.
  assert (Hcp : (cp == 50)%Q).
  { unfold cp, pct_value.
    rewrite (Qlt_bool_comp 0 0 cost_limit 10 (Qeq_refl 0) Hc10).
    change (Qlt_bool 0 10) with true. cbv iota. rewrite Hc5, Hc10. reflexivity. }
  assert (Hmax : (py_max (py_max tp cp) mp == 50)%Q).
  { assert (H1 : (py_max tp cp == 50)%Q)
      by (destruct (py_max_cases tp cp) as [[-> _]|[-> _]]; assumption).
    destruct (py_max_cases (py_max tp cp) mp) as [[-> _]|[-> Hlt]]; [exact H1|].
    apply Qle_antisym; [exact Hmsg|]. rewrite <- H1. now apply Qlt_le_weak. }
  rewrite io_bind_print.
  rewrite format_title_default, (get_color_comp _ _ Hmax).
  rewrite (format_f_comp 0 tp 50 Htp), (format_f_comp 2 cost 5 Hc5).
  eexists. eexists. split; reflexivity.
Qed.

End Render.


Lemma main_title_end_to_end_witness :
  exists (rest : list pystr) (r : result unit),
    main ascii_lower ascii_upper no_tail
      (sample_analyzer [sample_block_old; sample_block]) (sample_world Missing)
    = (title_line (u "TKN 50%  CST $5.00") (get_color 50) :: rest, r)
    /\ title_line (u "TKN 50%  CST $5.00") (get_color 50)
       = u "TKN 50%  CST $5.00 | color=#FFD95C font=SFMono-Regular size=12 offset=2".
Proof.
  apply (main_title_end_to_end ascii_lower ascii_upper no_tail
           (sample_analyzer [sample_block_old; sample_block]) (sample_world Missing)
           (Usage (Some [sample_block_old; sample_block]))
           [sample_block_old] [] sample_block 5%Q 10%Q 250).
  - reflexivity.
  - reflexivity.
  - reflexivity.
  - repeat constructor.
  - reflexivity.
  - reflexivity.
  - reflexivity.
  - reflexivity.
  - reflexivity.
  - reflexivity.
  - reflexivity.
  - reflexivity.
  - vm_compute. discriminate.
  - reflexivity.
Defined.

(** ** The entry point *)

Section Entry.

Variable str_lower : pystr -> pystr.
Variable str_upper : pystr -> pystr.
Variable dashboard_tail : block -> io unit.

Lemma save_config_returns (key : pystr) (value : json) (cfg : file) :
  object_or_absent cfg -> exists cfg', _save_config key value cfg = Ok cfg'.
Proof.
  destruct cfg as [| |[]]; simpl; try contradiction; intros _; eexists; reflexivity.
Qed.

Lemma save_config_raises (key : pystr) (value : json) (cfg : file) :
  ~ object_or_absent cfg -> exists e, _save_config key value cfg = Raise e.
Proof.
  destruct cfg as [| |[]]; simpl; intros H; try (now destruct H); eexists; reflexivity.
Qed.

(** The two command branches end with status 0 when the settings file is
    absent, unreadable or holds an object. *)
Lemma command_exit_zero (script arg1 arg2 : pystr) (more : list pystr)
    (an : analyzer) (w : world) :
  object_or_absent (config_file w) ->
  arg1 = u "--set-plan" \/ arg1 = u "--toggle-display" ->
  exit_status (__main__ str_lower str_upper dashboard_tail
                 (script :: arg1 :: arg2 :: more) an w) = 0.
Proof.
  intros Hc [-> | ->]; unfold __main__.
  - rewrite bool_decide_eq_true_2 by reflexivity.
    destruct (str_in _ VALID_PLANS); [|reflexivity].
    destruct (save_config_returns (u "plan") (JStr (str_strip (str_lower arg2))) _ Hc)
      as (cfg' & H).
    unfold set_plan. now rewrite H.
  - rewrite bool_decide_eq_false_2 by discriminate.
    rewrite bool_decide_eq_true_2 by reflexivity.
    destruct (str_in _ valid_keys) eqn:E; [|reflexivity].
    apply str_in_true in E.
    destruct (toggle_display_step _ _ E Hc) as (cfg' & H & _). now rewrite H.
Qed.

(** They end with status 1, and leave the file as it was, when the file
    parses to a document that is not an object and the argument is
    recognized. *)
Lemma command_exit_one (script arg1 arg2 : pystr) (more : list pystr)
    (an : analyzer) (w : world) :
  ~ object_or_absent (config_file w) ->
  (arg1 = u "--set-plan" /\ str_strip (str_lower arg2) ∈ VALID_PLANS) \/
  (arg1 = u "--toggle-display" /\ str_strip (str_lower arg2) ∈ valid_keys) ->
  __main__ str_lower str_upper dashboard_tail (script :: arg1 :: arg2 :: more) an w
  = Outcome [] 1 w.
Proof.
  intros Hc [[-> Hin] | [-> Hin]]; unfold __main__.
  - rewrite bool_decide_eq_true_2 by reflexivity.
    rewrite (proj2 (str_in_true _ _) Hin).
    destruct (save_config_raises (u "plan") (JStr (str_strip (str_lower arg2))) _ Hc)
      as (e & H).
    unfold set_plan. now rewrite H.
  - rewrite bool_decide_eq_false_2 by discriminate.
    rewrite bool_decide_eq_true_2 by reflexivity.
    rewrite (proj2 (str_in_true _ _) Hin).
    unfold toggle_display.
    destruct (save_config_raises (u "display")
                (JList (map JStr (toggled (str_strip (str_lower arg2))
                                    (get_display (config_file w))))) _ Hc) as (e & H).
    unfold toggled in H. now rewrite H.
Qed.

(** An exception of a limit of [Plans] leaves [main]: nothing is printed
    and the process ends with status 1. *)
Lemma main_limit_exception_escapes (an : analyzer) (w : world) (us : usage)
    (pre post : list block) (b : block) (e : exn) :
  import_error an = None -> analyze_usage an = Ok us ->
  default [] (blocks us) = pre ++ b :: post ->
  Forall (fun x => is_active x = false) pre -> is_active b = true ->
  get_token_limit an (get_plan str_lower w) (pre ++ b :: post) = Raise e ->
  main str_lower str_upper dashboard_tail an w = ([], Raise e) /\
  exit_status (__main__ str_lower str_upper dashboard_tail [] an w) = 1.
Proof.
  intros Hi Ha Hbs Hpre Hb Hl.
  assert (Hm : main str_lower str_upper dashboard_tail an w = ([], Raise e)).
  { rewrite (main_first_active_block str_lower str_upper dashboard_tail
               an w us pre post b Hi Ha Hbs Hpre Hb).
    unfold render_dashboard.
    rewrite Hl. reflexivity. }
  split; [exact Hm|]. unfold __main__. now rewrite Hm.
Qed.

Lemma io_bind_ok {A B : Type} (m : io A) (k : A -> io B) (a : A) (b : B) :
  snd m = Ok a -> snd (k a) = Ok b -> snd (io_bind m k) = Ok b.
Proof.
  destruct m as [out r]. simpl. intros -> Hk. destruct (k a). exact Hk.
Qed.

(** [main] returns when the import fails with [ImportError] or succeeds,
    the three limits of [Plans] return and the tail of the dashboard
    returns: the exceptions of [analyze_usage] are rendered. *)
Lemma main_returns (an : analyzer) (w : world) :
  (forall e, import_error an = Some e -> exn_cls e = ImportError) ->
  (forall plan bs, exists n, get_token_limit an plan bs = Ok n) ->
  (forall plan, exists q, get_cost_limit an plan = Ok q) ->
  (forall plan, exists n, get_message_limit an plan = Ok n) ->
  (forall b, snd (dashboard_tail b) = Ok tt) ->
  snd (main str_lower str_upper dashboard_tail an w) = Ok tt /\
  exit_status (__main__ str_lower str_upper dashboard_tail [] an w) = 0.
Proof.
  intros Himp Htl Hcl Hml Htail.
  assert (Hm : snd (main str_lower str_upper dashboard_tail an w) = Ok tt).
  { unfold main. destruct (import_error an) as [e|] eqn:Ei.
    { rewrite (Himp e eq_refl). reflexivity. }
    destruct (analyze_usage an) as [us|e]; [|reflexivity].
    destruct (default [] (blocks us)) as [|b0 bs] eqn:Eb; [reflexivity|].
    destruct (filter _ (b0 :: bs)) as [|b _].
    - destruct (last (b0 :: bs)) as [lst|] eqn:El; [reflexivity|].
      apply last_None in El. discriminate.
    - unfold render_dashboard.
      destruct (Htl (get_plan str_lower w) (b0 :: bs)) as (tl & ->).
      destruct (Hcl (get_plan str_lower w)) as (cl & ->).
      destruct (Hml (get_plan str_lower w)) as (ml & ->).
      rewrite !io_bind_lift_ok, !pct_of_limit_value, !io_bind_lift_ok.
      repeat (eapply io_bind_ok; [reflexivity|]).
      eapply io_bind_ok; [apply Htail|]. reflexivity. }
  split; [exact Hm|]. unfold __main__.
  destruct (main str_lower str_upper dashboard_tail an w) as [out r].
  simpl in Hm. now rewrite Hm.
Qed.

End Entry.

(** C1, at a failing input: the settings file holds the JSON document
    [[]] and the script is called with [--toggle-display cost] or with
    [--set-plan pro].  [get_display] falls back to the default list, then
    the item assignment of [_save_config] raises [TypeError] outside any
    [try]: the process ends with status 1, the file unchanged. *)
Theorem command_on_list_document_fails :
  let w := sample_world (Parsed (JList [])) in
  toggle_display (u "cost") (config_file w)
    = Raise (Exn TypeError (u "list indices must be integers or slices, not str")) /\
  __main__ ascii_lower ascii_upper no_tail
    [sample_script; u "--toggle-display"; u "cost"] (sample_analyzer []) w
    = Outcome [] 1 w /\
  __main__ ascii_lower ascii_upper no_tail
    [sample_script; u "--set-plan"; u "pro"] (sample_analyzer []) w
    = Outcome [] 1 w.
Proof. intros w. repeat split; vm_compute; reflexivity. Qed.

(** * Further properties of the settings store *)

(** [get_display] reads the document through its [display] entry alone. *)
Lemma get_display_lookup (m m' : gmap pystr json) :
  m !! u "display" = m' !! u "display" ->
  get_display (Parsed (JObj m)) = get_display (Parsed (JObj m')).
Proof.
  intros H. unfold get_display, get_display_try. simpl. now rewrite H.
Qed.

Lemma set_plan_preserves_display_file (plan : pystr) (cfg : file) :
  get_display (config_after (set_plan plan cfg) cfg) = get_display cfg.
Proof.
  destruct cfg as [| |j]; try reflexivity.
  destruct j; try reflexivity.
  unfold set_plan, _save_config. simpl.
  apply get_display_lookup. apply lookup_insert_ne. discriminate.
Qed.

(** X1. Saving any value under [plan] never changes the enabled metrics:
    whatever the settings file holds, [get_display] returns the same list
    before and after [set_plan], also when the file was missing or
    unreadable (the default list both times) and when the call raises;
    and what is stored under [display] is untouched. *)
Theorem set_plan_preserves_display (plan : pystr) (cfg : file) :
  get_display (config_after (set_plan plan cfg) cfg) = get_display cfg /\
  (forall m, cfg = Parsed (JObj m) ->
     stored_display (config_after (set_plan plan cfg) cfg) = stored_display cfg).
Proof.
  split; [apply set_plan_preserves_display_file|].
  intros m ->. simpl. apply lookup_insert_ne. discriminate.
Qed.

Lemma set_plan_preserves_display_witness :
  stored_display
    (config_after (set_plan (u "pro") (Parsed (JObj {[ u "display" := JList [JStr (u "msg")] ]})))
       (Parsed (JObj {[ u "display" := JList [JStr (u "msg")] ]})))
  = Some (JList [JStr (u "msg")]).
Proof.
  destruct (set_plan_preserves_display (u "pro")
              (Parsed (JObj {[ u "display" := JList [JStr (u "msg")] ]}))) as (_ & H).
  rewrite (H _ eq_refl). reflexivity.
Defined.

(** X2. Two saves under different keys give the same document in either
    order, and a second save under the same key replaces the first; this
    for every file on which the save returns. *)
Theorem save_config_compose (k1 k2 : pystr) (v1 v2 : json) (cfg : file) :
  object_or_absent cfg ->
  (k1 <> k2 ->
     (try! c <- _save_config k1 v1 cfg in _save_config k2 v2 c)
     = (try! c <- _save_config k2 v2 cfg in _save_config k1 v1 c)) /\
  (try! c <- _save_config k1 v1 cfg in _save_config k1 v2 c) = _save_config k1 v2 cfg /\
  (exists c, (try! c <- _save_config k1 v1 cfg in _save_config k2 v2 c) = Ok c /\
             object_or_absent c).
Proof.
  intros Hc.
  assert (H : exists m : gmap pystr json,
             forall k v, _save_config k v cfg = Ok (Parsed (JObj (<[k := v]> m)))).
  { destruct cfg as [| |[]]; simpl in Hc; try contradiction.
    - exists ∅. reflexivity.
    - exists ∅. reflexivity.
    - exists m. reflexivity. }
  destruct H as (m & Hs). rewrite !Hs. unfold _save_config, bind, py_setitem.
  split; [|split].
  - intros Hne. now rewrite insert_insert_ne.
  - now rewrite insert_insert_eq.
  - eexists. split; [reflexivity | exact I].
Qed.

Lemma save_config_compose_witness :
  (try! c <- _save_config (u "plan") (JStr (u "max5")) Missing in
   _save_config (u "display") (JList [JStr (u "msg")]) c)
  = (try! c <- _save_config (u "display") (JList [JStr (u "msg")]) Missing in
     _save_config (u "plan") (JStr (u "max5")) c).
Proof.
  destruct (save_config_compose (u "plan") (u "display") (JStr (u "max5"))
              (JList [JStr (u "msg")]) Missing I) as (H & _).
  apply H. discriminate.
Defined.

Lemma list_remove_first_keeps_NoDup (x : pystr) (l : list pystr) :
  NoDup l -> NoDup (list_remove_first x l).
Proof.
  induction 1 as [|y ys Hy Hys IH]; simpl; [constructor|].
  case_bool_decide; [exact Hys|].
  constructor; [|exact IH]. intros Hin. apply Hy.
  now apply list_remove_first_subset in Hin.
Qed.

Lemma default_display_NoDup : NoDup DEFAULT_DISPLAY.
Proof. compute_done. Qed.

Lemma toggled_NoDup (m : pystr) (l : list pystr) : NoDup l -> NoDup (toggled m l).
Proof.
  intros Hnd. unfold toggled.
  assert (H : NoDup (if str_in m l then list_remove_first m l else l ++ [m])).
  { destruct (str_in m l) eqn:E.
    - now apply list_remove_first_keeps_NoDup.
    - apply str_in_false in E. apply NoDup_app. split; [exact Hnd|]. split.
      + intros x Hx Hxm. apply list_elem_of_singleton in Hxm. now subst.
      + apply NoDup_singleton. }
  destruct (if str_in m l then _ else _); [apply default_display_NoDup | exact H].
Qed.

Lemma toggle_then_stored_display (m : pystr) (cfg : file) :
  object_or_absent cfg ->
  stored_display (toggle_then m cfg) = Some (JList (map JStr (toggled m (get_display cfg)))).
Proof.
  intros Hc.
  destruct cfg as [| |[]]; simpl in Hc; try contradiction; simpl;
    apply lookup_insert_eq.
Qed.

(** X3. A toggle of a recognized metric, on a settings file that is
    absent, unreadable or holds an object, leaves under [display] a
    non-empty list of recognized identifiers, which is the enabled list
    afterwards; no identifier is repeated in it if none was before. *)
Theorem toggle_display_invariant (m : pystr) (cfg : file) :
  m ∈ valid_keys -> object_or_absent cfg ->
  let enabled := get_display (toggle_then m cfg) in
  stored_display (toggle_then m cfg) = Some (JList (map JStr enabled)) /\
  enabled <> [] /\
  Forall (fun k => k ∈ valid_keys) enabled /\
  (NoDup (get_display cfg) -> NoDup enabled).
Proof.
  intros Hm Hc enabled.
  destruct (toggle_then_twice m cfg Hm Hc) as (Hg & _).
  unfold enabled. rewrite Hg. split; [|split; [|split]].
  - now apply toggle_then_stored_display.
  - apply toggled_not_nil.
  - apply toggled_valid; [exact Hm | apply get_display_valid].
  - apply toggled_NoDup.
Qed.

Lemma toggle_display_invariant_witness :
  let cfg := Parsed (JObj {[ u "display" := JList [JStr (u "cost")] ]}) in
  stored_display (toggle_then (u "cost") cfg)
    = Some (JList (map JStr (get_display (toggle_then (u "cost") cfg)))) /\
  get_display (toggle_then (u "cost") cfg) <> [].
Proof.
  intros cfg.
  assert (Hm : u "cost" ∈ valid_keys) by compute_done.
  destruct (toggle_display_invariant (u "cost") cfg Hm I) as (H1 & H2 & _).
  split; [exact H1 | exact H2].
Defined.



(** * Further properties of the plan resolution *)

Section Plans.

Variable str_lower : pystr -> pystr.

Lemma plan_of_file_valid (fl : file) (p : pystr) :
  plan_of_file str_lower fl = Some p -> p ∈ VALID_PLANS.
Proof.
  unfold plan_of_file. destruct fl as [| |config]; try discriminate.
  destruct (bind _ _) as [plan|e]; [|discriminate].
  destruct (str_in plan VALID_PLANS) eqn:E; [|discriminate].
  intros [= <-]. now apply str_in_true.
Qed.

(** [plan_of_file] reads the document through its [plan] entry alone. *)
Lemma plan_of_file_lookup (m m' : gmap pystr json) :
  m !! u "plan" = m' !! u "plan" ->
  plan_of_file str_lower (Parsed (JObj m)) = plan_of_file str_lower (Parsed (JObj m')).
Proof. intros H. unfold plan_of_file. simpl. now rewrite H. Qed.

Lemma get_plan_in_valid_plans (w : world) : get_plan str_lower w ∈ VALID_PLANS.
Proof.
  unfold get_plan.
  destruct (str_in _ VALID_PLANS) eqn:E; [now apply str_in_true|].
  destruct (plan_of_file str_lower (config_file w)) as [p|] eqn:E1;
    [now apply plan_of_file_valid in E1|].
  destruct (plan_of_file str_lower (last_used_file w)) as [p|] eqn:E2;
    [now apply plan_of_file_valid in E2|].
  compute_done.
Qed.

(** X5. Whatever the environment variable and the two files hold,
    [get_plan] returns one of the four plan names, for which the table of
    labels has a label. *)
Theorem get_plan_valid (w : world) :
  get_plan str_lower w ∈ VALID_PLANS /\
  exists label, PLAN_LABELS !! get_plan str_lower w = Some label.
Proof.
  pose proof (get_plan_in_valid_plans w) as H. split; [exact H|].
  unfold VALID_PLANS in H.
  repeat (apply elem_of_cons in H as [->|H]; [eexists; reflexivity|]). inversion H.
Qed.

(** A file gives no plan when it is missing or unreadable, when its
    document is not an object, and when the entry [plan] is not a string
    or is a string that does not normalize to a plan name. *)
Lemma plan_of_file_none (fl : file) :
  fl = Missing \/ fl = Unreadable \/
  (exists j, fl = Parsed j /\ forall m, j <> JObj m) \/
  (exists m j, fl = Parsed (JObj m) /\ m !! u "plan" = Some j /\ forall s, j <> JStr s) \/
  (exists m s, fl = Parsed (JObj m) /\ m !! u "plan" = Some (JStr s) /\
               str_strip (str_lower s) ∉ VALID_PLANS) ->
  plan_of_file str_lower fl = None.
Proof.
  intros [->|[->|[(j & -> & Hj)|[(m & j & -> & Hm & Hj)|(m & s & -> & Hm & Hs)]]]];
    try reflexivity.
  - destruct j; try reflexivity. now destruct (Hj m).
  - unfold plan_of_file. simpl. rewrite Hm.
    destruct j; try reflexivity. now destruct (Hj s).
  - unfold plan_of_file. simpl. rewrite Hm.
    now rewrite (proj2 (str_in_false _ _) Hs).
Qed.

(** X6. The sources of the plan, in their order.  A value of [CCM_PLAN]
    that normalizes to a plan name wins over both files.  Otherwise a
    string under [plan] in the settings object that normalizes to a plan
    name wins over the legacy file.  Otherwise, when the settings file is
    missing, unreadable, not an object, or has an unusable [plan], the
    result is what the legacy file gives, and "pro" when that file gives
    nothing either; nothing is raised on the way. *)
Theorem get_plan_sources (w : world) :
  let env := str_strip (str_lower (default [] (CCM_PLAN w))) in
  (env ∈ VALID_PLANS -> get_plan str_lower w = env) /\
  (env ∉ VALID_PLANS ->
     (forall m s, config_file w = Parsed (JObj m) -> m !! u "plan" = Some (JStr s) ->
        str_strip (str_lower s) ∈ VALID_PLANS ->
        get_plan str_lower w = str_strip (str_lower s)) /\
     (config_file w = Missing \/ config_file w = Unreadable \/
      (exists j, config_file w = Parsed j /\ forall m, j <> JObj m) \/
      (exists m j, config_file w = Parsed (JObj m) /\ m !! u "plan" = Some j /\
                   forall s, j <> JStr s) \/
      (exists m s, config_file w = Parsed (JObj m) /\ m !! u "plan" = Some (JStr s) /\
                   str_strip (str_lower s) ∉ VALID_PLANS) ->
      get_plan str_lower w = default (u "pro") (plan_of_file str_lower (last_used_file w)))).
Proof.
  intros env. unfold get_plan. fold env. split.
  - intros H. now rewrite (proj2 (str_in_true _ _) H).
  - intros H. rewrite (proj2 (str_in_false _ _) H). split.
    + intros m s Hc Hm Hs. rewrite Hc. unfold plan_of_file. simpl. rewrite Hm.
      now rewrite (proj2 (str_in_true _ _) Hs).
    + intros Hc. rewrite (plan_of_file_none _ Hc).
      now destruct (plan_of_file str_lower (last_used_file w)).
Qed.



(** X7. A toggle never changes the plan: when lower-casing the empty
    string gives the empty string, [get_plan] returns the same plan
    before and after [toggle_display], whatever the files hold. *)
Theorem toggle_display_preserves_plan (w : world) (m : pystr) :
  str_lower [] = [] ->
  get_plan str_lower (set_config_file w (toggle_then m (config_file w)))
  = get_plan str_lower w.
Proof.
  intros Hl.
  assert (H : plan_of_file str_lower (toggle_then m (config_file w))
              = plan_of_file str_lower (config_file w)).
  { destruct (config_file w) as [| |j].
    - unfold plan_of_file. simpl. rewrite lookup_insert_ne by discriminate.
      rewrite lookup_empty, Hl. reflexivity.
    - unfold plan_of_file. simpl. rewrite lookup_insert_ne by discriminate.
      rewrite lookup_empty, Hl. reflexivity.
    - destruct j; try reflexivity.
      apply plan_of_file_lookup. apply lookup_insert_ne. discriminate. }
  unfold get_plan. simpl. now rewrite H.
Qed.

End Plans.

Lemma ascii_lower_plan (p : pystr) : p ∈ VALID_PLANS -> ascii_lower p = p.
Proof.
  intros H. unfold VALID_PLANS in H.
  repeat (apply elem_of_cons in H as [->|H]; [reflexivity|]). inversion H.
Qed.

Lemma get_plan_sources_witness :
  get_plan ascii_lower (World (Some (u " MAX5 ")) Missing Missing sample_script) = u "max5" /\
  get_plan ascii_lower
    (World None (Parsed (JObj {[ u "plan" := JStr (u "Max20") ]}))
       (Parsed (JObj {[ u "plan" := JStr (u "custom") ]})) sample_script) = u "max20" /\
  get_plan ascii_lower
    (World (Some (u "team")) (Parsed (JObj {[ u "plan" := JInt 5 ]}))
       (Parsed (JObj {[ u "plan" := JStr (u "custom") ]})) sample_script) = u "custom".
Proof.
  split; [|split].
  - destruct (get_plan_sources ascii_lower
                (World (Some (u " MAX5 ")) Missing Missing sample_script)) as (H & _).
    apply H. compute_done.
  - destruct (get_plan_sources ascii_lower
                (World None (Parsed (JObj {[ u "plan" := JStr (u "Max20") ]}))
                   (Parsed (JObj {[ u "plan" := JStr (u "custom") ]})) sample_script))
      as (_ & H).
    destruct H as (H & _); [compute_done|].
    apply (H _ (u "Max20") eq_refl); [reflexivity | compute_done].
  - destruct (get_plan_sources ascii_lower
                (World (Some (u "team")) (Parsed (JObj {[ u "plan" := JInt 5 ]}))
                   (Parsed (JObj {[ u "plan" := JStr (u "custom") ]})) sample_script))
      as (_ & H).
    destruct H as (_ & H); [compute_done|].
    apply H. right; right; right; left.
    eexists _, (JInt 5). split; [reflexivity|]. split; [reflexivity | discriminate].
Defined.

Lemma toggle_display_preserves_plan_witness :
  get_plan ascii_lower
    (set_config_file
       (World None (Parsed (JObj {[ u "plan" := JStr (u "max5") ]})) Missing sample_script)
       (toggle_then (u "msg") (Parsed (JObj {[ u "plan" := JStr (u "max5") ]}))))
  = u "max5".
Proof.
  etransitivity.
  - exact (toggle_display_preserves_plan ascii_lower
             (World None (Parsed (JObj {[ u "plan" := JStr (u "max5") ]})) Missing sample_script)
             (u "msg") eq_refl).
  - reflexivity.
Defined.

(** * Further properties of the formatter *)

(** The floor of [x] is the integer [z] with [z <= x < z + 1]. *)
Lemma Qfloor_unique (x : Q) (z : Z) :
  (inject_Z z <= x)%Q -> (x < inject_Z (z + 1))%Q -> Qfloor x = z.
Proof.
  intros Hlo Hhi.
  pose proof (Qfloor_le x) as H1. pose proof (Qlt_floor x) as H2.
  assert (Ha : (inject_Z (Qfloor x) < inject_Z (z + 1))%Q) by (eapply Qle_lt_trans; eauto).
  assert (Hb : (inject_Z z < inject_Z (Qfloor x + 1))%Q) by (eapply Qle_lt_trans; eauto).
  rewrite <- Zlt_Qlt in Ha, Hb. lia.
Qed.

Lemma py_int_inject_Z (z : Z) : py_int (inject_Z z) = z.
Proof. unfold py_int. simpl. apply Z.quot_1_r. Qed.

(** X8. The bar of a resource on the dashboard: for a usage [v >= 0]
    the bar of width 16 has 16 glyphs; with a limit above zero it is
    completely filled exactly when the usage has reached the limit, and
    with a limit of zero or less it is empty. *)
Theorem resource_bar (v limit : Q) :
  (0 <= v)%Q ->
  Z.of_nat (length (bar_graph (pct_value v limit) 16)) = 16 /\
  ((0 < limit)%Q ->
     (bar_graph (pct_value v limit) 16 = replicate 16 FULL_BLOCK <-> (limit <= v)%Q)) /\
  ((limit <= 0)%Q -> bar_graph (pct_value v limit) 16 = replicate 16 LIGHT_SHADE).
Proof.
  intros Hv.
  assert (Hp : (0 <= pct_value v limit)%Q).
  { unfold pct_value. destruct (Qlt_bool 0 limit) eqn:E; [|discriminate].
    apply Qlt_bool_iff in E.
    apply Qmult_le_0_compat; [|discriminate].
    apply Qle_shift_div_l; [exact E|]. now rewrite Qmult_0_l. }
  assert (Hx0 : (0 <= pct_value v limit / 100 * inject_Z 16)%Q).
  { apply Qmult_le_0_compat; [|discriminate].
    apply Qmult_le_0_compat; [exact Hp | discriminate]. }
  assert (Hfl0 : 0 <= Qfloor (pct_value v limit / 100 * inject_Z 16))
    by (change 0 with (Qfloor 0); now apply Qfloor_resp_le).
  assert (Hbar : bar_graph (pct_value v limit) 16
                 = replicate (Z.to_nat (Z.min (Qfloor (pct_value v limit / 100 * inject_Z 16)) 16))
                     FULL_BLOCK
                   ++ replicate
                        (Z.to_nat (16 - Z.min (Qfloor (pct_value v limit / 100 * inject_Z 16)) 16))
                        LIGHT_SHADE).
  { rewrite bar_graph_unfold. unfold bar_filled. now rewrite py_int_nonneg. }
  split; [rewrite Hbar, length_app, !length_replicate; lia|]. split.
  - intros Hl. pose proof Hl as Hl'. apply Qlt_bool_iff in Hl'.
    set (x := (pct_value v limit / 100 * inject_Z 16)%Q) in *.
    assert (Hx : (x == v / limit * 16)%Q).
    { unfold x, pct_value. rewrite Hl'. field. intros H0. rewrite H0 in Hl. discriminate. }
    rewrite Hbar. split.
    + intros Heq.
      assert (Hf : Z.min (Qfloor x) 16 = 16).
      { apply (f_equal (fun l => Z.of_nat (filled_count l))) in Heq.
        change (replicate 16 FULL_BLOCK)
          with (replicate 16 FULL_BLOCK ++ replicate 0 LIGHT_SHADE) in Heq.
        rewrite !filled_count_bar in Heq. lia. }
      assert (H16 : (inject_Z 16 <= x)%Q).
      { apply Qle_trans with (inject_Z (Qfloor x)); [|apply Qfloor_le].
        rewrite <- Zle_Qle. lia. }
      change (inject_Z 16) with 16%Q in H16. rewrite Hx in H16.
      assert (H1 : (1 <= v / limit)%Q) by lra.
      assert (Hnz : ~ (limit == 0)%Q) by (intros H0; rewrite H0 in Hl; discriminate).
      apply Qle_trans with (limit * (v / limit))%Q.
      * apply Qle_trans with (limit * 1)%Q; [rewrite Qmult_1_r; apply Qle_refl|].
        apply Qmult_le_l; assumption.
      * rewrite (Qmult_div_r v limit Hnz). apply Qle_refl.
    + intros Hle.
      assert (H16 : (inject_Z 16 <= x)%Q).
      { rewrite Hx. change (inject_Z 16) with (1 * 16)%Q.
        apply Qmult_le_compat_r; [|discriminate].
        apply Qle_shift_div_l; [exact Hl|]. now rewrite Qmult_1_l. }
      assert (Hf : 16 <= Qfloor x).
      { change 16 with (Qfloor (inject_Z 16)) at 1. now apply Qfloor_resp_le. }
      replace (Z.min (Qfloor x) 16) with 16 by lia. reflexivity.
  - intros Hl. apply Qlt_bool_false_iff in Hl.
    unfold pct_value. rewrite Hl. reflexivity.
Qed.

Lemma resource_bar_witness :
  Z.of_nat (length (bar_graph (pct_value 50000 100000) 16)) = 16 /\
  bar_graph (pct_value 120000 100000) 16 = replicate 16 FULL_BLOCK /\
  bar_graph (pct_value 7 0) 16 = replicate 16 LIGHT_SHADE.
Proof.
  destruct (resource_bar 50000 100000 ltac:(discriminate)) as (H1 & _).
  destruct (resource_bar 120000 100000 ltac:(discriminate)) as (_ & H2 & _).
  destruct (resource_bar 7 0 ltac:(discriminate)) as (_ & _ & H3).
  split; [exact H1|]. split.
  - apply H2; [reflexivity | discriminate].
  - apply H3. discriminate.
Defined.

(** X9. [fmt_duration]: below one minute (also below zero) the text is
    "<1m"; from one minute and below an hour it is the whole minutes; from
    an hour on it shows at least one hour and the minutes left, which are
    fewer than 60, and the two make up the whole minutes of the input. *)
Theorem fmt_duration_spec (minutes : Q) :
  ((minutes < 1)%Q -> fmt_duration minutes = u "<1m") /\
  ((1 <= minutes)%Q -> (minutes < 60)%Q ->
     fmt_duration minutes = str_of_int (Qfloor minutes) ++ u "m" /\
     1 <= Qfloor minutes < 60) /\
  ((60 <= minutes)%Q ->
     exists h m : Z,
       fmt_duration minutes = str_of_int h ++ u "h " ++ str_of_int m ++ u "m" /\
       1 <= h /\ 0 <= m < 60 /\ h * 60 + m = Qfloor minutes).
Proof.
  unfold fmt_duration. split; [|split].
  - intros H. apply Qlt_bool_iff in H. now rewrite H.
  - intros H1 H60. pose proof H1 as H1'. pose proof H60 as H60'.
    apply Qlt_bool_false_iff in H1'. apply Qlt_bool_iff in H60'. rewrite H1', H60'.
    rewrite py_int_nonneg by lra. split; [reflexivity|].
    assert (Hlo : Qfloor 1 <= Qfloor minutes) by now apply Qfloor_resp_le.
    assert (Hhi : (inject_Z (Qfloor minutes) < inject_Z 60)%Q)
      by (eapply Qle_lt_trans; [apply Qfloor_le | exact H60]).
    rewrite <- Zlt_Qlt in Hhi. change (Qfloor 1) with 1 in Hlo. lia.
  - intros H60.
    assert (H1' : Qlt_bool minutes 1 = false) by (apply Qlt_bool_false_iff; lra).
    assert (H60' : Qlt_bool minutes 60 = false) by (apply Qlt_bool_false_iff; lra).
    rewrite H1', H60'.
    set (h := Qfloor (minutes / 60)).
    pose proof (Qfloor_le (minutes / 60)) as Hlo.
    pose proof (Qlt_floor (minutes / 60)) as Hhi.
    fold h in Hlo, Hhi. rewrite inject_Z_plus in Hhi. change (inject_Z 1) with 1%Q in Hhi.
    assert (Hm : (minutes == 60 * (minutes / 60))%Q) by (field).
    assert (Hlo' : (60 * inject_Z h <= minutes)%Q) by lra.
    assert (Hhi' : (minutes < 60 * inject_Z h + 60)%Q) by lra.
    assert (Hh : 1 <= h).
    { change 1 with (Qfloor 1). apply Qfloor_resp_le.
      apply Qle_shift_div_l; [reflexivity | lra]. }
    assert (Hfl : Qfloor minutes = 60 * h + Qfloor (minutes - 60 * inject_Z h)).
    { apply Qfloor_unique.
      - rewrite inject_Z_plus, inject_Z_mult. change (inject_Z 60) with 60%Q.
        pose proof (Qfloor_le (minutes - 60 * inject_Z h)). lra.
      - replace (60 * h + Qfloor (minutes - 60 * inject_Z h) + 1)
          with (60 * h + (Qfloor (minutes - 60 * inject_Z h) + 1)) by lia.
        rewrite inject_Z_plus, inject_Z_mult. change (inject_Z 60) with 60%Q.
        pose proof (Qlt_floor (minutes - 60 * inject_Z h)). lra. }
    assert (Hr0 : 0 <= Qfloor (minutes - 60 * inject_Z h)).
    { change 0 with (Qfloor 0). apply Qfloor_resp_le. lra. }
    assert (Hr60 : Qfloor (minutes - 60 * inject_Z h) < 60).
    { rewrite Zlt_Qlt. eapply Qle_lt_trans; [apply Qfloor_le|].
      change (inject_Z 60) with 60%Q. lra. }
    exists h, (Qfloor (minutes - 60 * inject_Z h)).
    rewrite py_int_inject_Z, py_int_nonneg by lra.
    split; [reflexivity|]. lia.
Qed.

Lemma fmt_duration_spec_witness :
  fmt_duration (-3) = u "<1m" /\
  fmt_duration (91 # 2) = u "45m" /\
  exists h m : Z,
    fmt_duration (251 # 2) = str_of_int h ++ u "h " ++ str_of_int m ++ u "m" /\
    1 <= h /\ 0 <= m < 60 /\ h * 60 + m = 125.
Proof.
  destruct (fmt_duration_spec (-3)) as (H1 & _).
  destruct (fmt_duration_spec (91 # 2)) as (_ & H2 & _).
  destruct (fmt_duration_spec (251 # 2)) as (_ & _ & H3).
  split; [apply H1; reflexivity|]. split.
  - apply H2; [discriminate | reflexivity].
  - apply H3. discriminate.
Defined.



(** * Further properties of the rendering *)

Lemma valid_keys_cases (key : pystr) :
  key ∈ valid_keys <->
  (key = u "token_pct" \/ key = u "cost" \/ key = u "cost_pct" \/ key = u "msg"
   \/ key = u "msg_pct").
Proof.
  unfold valid_keys, DISPLAY_METRICS. simpl.
  rewrite !elem_of_cons, elem_of_nil. tauto.
Qed.

(** A recognized key gives one part, which starts with a label; any
    other key gives none. *)
Lemma title_part_cases (tp cp mp cost : Q) (messages msg_limit : Z) (key : pystr) :
  (key ∈ valid_keys /\
   exists lbl rest, lbl ∈ TITLE_LABELS /\
     title_part tp cp mp cost messages msg_limit key = [lbl ++ rest]) \/
  ((key ∉ valid_keys) /\ title_part tp cp mp cost messages msg_limit key = []).
Proof.
  unfold title_part, fstr.
  repeat case_bool_decide; subst.
  - left. split; [compute_done|]. eexists (u "TKN "), _. split; [compute_done | reflexivity].
  - left. split; [compute_done|]. eexists (u "CST "), _. split; [compute_done | reflexivity].
  - left. split; [compute_done|]. eexists (u "CST "), _. split; [compute_done | reflexivity].
  - left. split; [compute_done|]. eexists (u "MSG "), _. split; [compute_done | reflexivity].
  - left. split; [compute_done|]. eexists (u "MSG "), _. split; [compute_done | reflexivity].
  - right. split; [|reflexivity]. rewrite valid_keys_cases. tauto.
Qed.

Lemma str_join_cons (sep p : pystr) (ps : list pystr) :
  exists rest, str_join sep (p :: ps) = p ++ rest.
Proof.
  destruct ps as [|q qs]; simpl.
  - exists []. now rewrite app_nil_r.
  - eexists. reflexivity.
Qed.

(** With a recognized key in the display list the title starts with the
    label of the first one. *)
Lemma format_title_label (display : list pystr) (tp cp mp cost : Q)
    (messages msg_limit : Z) :
  Exists (fun k => k ∈ valid_keys) display ->
  exists lbl rest, lbl ∈ TITLE_LABELS /\
    _format_title display tp cp mp cost messages msg_limit = lbl ++ rest.
Proof.
  assert (Hparts : Exists (fun k => k ∈ valid_keys) display ->
                   exists lbl rest ps, lbl ∈ TITLE_LABELS /\
                     concat (map (title_part tp cp mp cost messages msg_limit) display)
                     = (lbl ++ rest) :: ps).
  { induction display as [|k ks IH]; intros Hex; [inversion Hex|].
    cbn [map concat].
    destruct (title_part_cases tp cp mp cost messages msg_limit k)
      as [(_ & lbl & rest & Hl & ->)|[Hk ->]].
    - exists lbl, rest, (concat (map (title_part tp cp mp cost messages msg_limit) ks)).
      split; [exact Hl | reflexivity].
    - cbn [app]. apply IH. apply Exists_cons in Hex as [Hex|Hex]; [contradiction | exact Hex]. }
  intros Hex. destruct (Hparts Hex) as (lbl & rest & ps & Hl & Hp).
  unfold _format_title. rewrite Hp.
  destruct (str_join_cons (u "  ") (lbl ++ rest) ps) as (rest' & ->).
  exists lbl, (rest ++ rest'). split; [exact Hl | now rewrite app_assoc].
Qed.



Lemma get_color_red_iff (x : Q) : get_color x = COLOR_RED <-> (95 <= x)%Q.
Proof.
  unfold get_color. rewrite <- Qle_bool_iff.
  destruct (Qle_bool 95 x); [tauto|].
  destruct (Qle_bool 80 x); [split; discriminate|].
  destruct (Qle_bool 50 x); split; discriminate.
Qed.

Lemma get_color_green_iff (x : Q) : get_color x = COLOR_GREEN <-> (x < 50)%Q.
Proof.
  unfold get_color. destruct (Qle_bool 95 x) eqn:E1.
  - apply Qle_bool_iff in E1. split; [discriminate | intros H; lra].
  - destruct (Qle_bool 80 x) eqn:E2.
    + apply Qle_bool_iff in E2. split; [discriminate | intros H; lra].
    + destruct (Qle_bool 50 x) eqn:E3.
      * apply Qle_bool_iff in E3. split; [discriminate | intros H; lra].
      * apply Qle_bool_false_iff in E3. tauto.
Qed.

Lemma py_max_le_iff (a b x : Q) : (x <= py_max a b)%Q <-> (x <= a)%Q \/ (x <= b)%Q.
Proof.
  destruct (py_max_cases a b) as [[-> H]|[-> H]]; split; intros H'.
  - now left.
  - destruct H' as [H'|H']; [exact H' | lra].
  - now right.
  - destruct H' as [H'|H']; [lra | exact H'].
Qed.

Lemma py_max_lt_iff (a b x : Q) : (py_max a b < x)%Q <-> (a < x)%Q /\ (b < x)%Q.
Proof.
  destruct (py_max_cases a b) as [[-> H]|[-> H]]; split; intros H'.
  - split; [exact H' | lra].
  - tauto.
  - split; [lra | exact H'].
  - tauto.
Qed.

(** X12. The color of the title follows the worst of the three
    resources: it is red exactly when the color of some resource is red,
    and green exactly when the colors of all three are green. *)
Theorem overall_color_severity (token_pct cost_pct msg_pct : Q) :
  let color := get_color (py_max (py_max token_pct cost_pct) msg_pct) in
  (color = COLOR_RED <->
     get_color token_pct = COLOR_RED \/ get_color cost_pct = COLOR_RED
     \/ get_color msg_pct = COLOR_RED) /\
  (color = COLOR_GREEN <->
     get_color token_pct = COLOR_GREEN /\ get_color cost_pct = COLOR_GREEN
     /\ get_color msg_pct = COLOR_GREEN).
Proof.
  intros color. unfold color.
  rewrite !get_color_red_iff, !get_color_green_iff.
  rewrite !py_max_le_iff, !py_max_lt_iff. tauto.
Qed.

Section Rendering.

Variable str_lower : pystr -> pystr.
Variable str_upper : pystr -> pystr.
Variable dashboard_tail : block -> io unit.

(** X13. Whatever the settings file holds, the dashboard never shows the
    placeholder title: when the three limits return, the first line
    printed for the current block starts with TKN, CST or MSG. *)
Theorem dashboard_title_label (an : analyzer) (w : world) (bs : list block) (b : block)
    (token_limit msg_limit : Z) (cost_limit : Q) :
  get_token_limit an (get_plan str_lower w) bs = Ok token_limit ->
  get_cost_limit an (get_plan str_lower w) = Ok cost_limit ->
  get_message_limit an (get_plan str_lower w) = Ok msg_limit ->
  exists (lbl rest : pystr) (lines : list pystr) (r : result unit),
    lbl ∈ TITLE_LABELS /\
    render_dashboard str_lower str_upper dashboard_tail an w bs b = ((lbl ++ rest) :: lines, r).
Proof.
  intros Htl Hcl Hml. unfold render_dashboard.
  rewrite Htl, Hcl, Hml, !io_bind_lift_ok, !pct_of_limit_value, !io_bind_lift_ok.
  rewrite io_bind_print.
  match goal with
  | |- context [_format_title ?d ?a ?b0 ?c ?e ?g ?h] =>
      pose proof (format_title_label d a b0 c e g h) as Hex
  end.
  destruct Hex as (lbl & rest & Hl & ->).
  { pose proof (get_display_valid (config_file w)) as Hv.
    pose proof (get_display_not_nil (config_file w)) as Hn.
    destruct (get_display (config_file w)) as [|k ks]; [contradiction|].
    apply Exists_cons_hd. now apply Forall_cons in Hv as [Hv _]. }
  unfold title_line, fstr. cbn [concat]. rewrite <- app_assoc.
  eexists lbl, _, _, _. split; [exact Hl | reflexivity].
Qed.


(** X15. At the import only [ImportError] is rendered: [main] then prints
    six lines, the last one the action that installs the package, and
    returns; an exception of another class leaves [main] with nothing
    printed. *)
Theorem main_import_failure (an : analyzer) (w : world) (e : exn) :
  import_error an = Some e ->
  (exn_cls e = ImportError ->
     exists lines,
       main str_lower str_upper dashboard_tail an w = (lines, Ok tt) /\
       length lines = 6%nat /\
       last lines = Some (u "Install claude-monitor | font=SFMono-Regular size=12 bash='pip' param1='install' param2='claude-monitor' terminal=true")) /\
  (exn_cls e <> ImportError ->
     main str_lower str_upper dashboard_tail an w = ([], Raise e)).
Proof.
  intros Hi. unfold main. rewrite Hi. split.
  - intros ->. eexists. split; [reflexivity|]. split; reflexivity.
  - intros Hne. destruct (exn_cls e); try reflexivity. contradiction.
Qed.

End Rendering.

Lemma dashboard_title_label_witness :
  exists (lbl rest : pystr) (lines : list pystr) (r : result unit),
    lbl ∈ TITLE_LABELS /\
    render_dashboard ascii_lower ascii_upper no_tail (sample_analyzer [sample_block])
      (sample_world (Parsed (JObj {[ u "display" := JList [JStr (u "msg_pct")] ]})))
      [sample_block] sample_block = ((lbl ++ rest) :: lines, r).
Proof.
  apply (dashboard_title_label ascii_lower ascii_upper no_tail (sample_analyzer [sample_block])
           _ [sample_block] sample_block 100000 250 10%Q); reflexivity.
Defined.


Lemma main_import_failure_witness :
  main ascii_lower ascii_upper no_tail
    (Analyzer (Some (Exn RuntimeError (u "broken package"))) (Ok (Usage None))
       (fun _ _ => Ok 0) (fun _ => Ok 0%Q) (fun _ => Ok 0))
    (sample_world Missing) = ([], Raise (Exn RuntimeError (u "broken package"))).
Proof.
  destruct (main_import_failure ascii_lower ascii_upper no_tail
              (Analyzer (Some (Exn RuntimeError (u "broken package"))) (Ok (Usage None))
                 (fun _ _ => Ok 0) (fun _ => Ok 0%Q) (fun _ => Ok 0))
              (sample_world Missing) (Exn RuntimeError (u "broken package")) eq_refl)
    as (_ & H).
  apply H. discriminate.
Defined.

Lemma is_checked_mark (label : pystr) (rest : list pystr) (b : bool) :
  is_checked (fstr (u "--" :: (if b then CHECK_MARK :: u " " else u "   ") :: label :: rest))
  <-> b = true.
Proof.
  unfold is_checked, fstr. destruct b; cbn; split; try reflexivity; discriminate.
Qed.

(** X16. The display submenu has a header and one line for each of the
    five metrics, in their order; a line carries the check mark exactly
    when its metric is enabled, and its action calls the script with
    [--toggle-display] and that metric. *)
Theorem display_submenu_lines (script : pystr) (current_display : list pystr) :
  exists (header : pystr) (lines : list pystr),
    _print_display_submenu script current_display = (header :: lines, Ok tt) /\
    length lines = length DISPLAY_METRICS /\
    forall (i : nat) (key label : pystr),
      DISPLAY_METRICS !! i = Some (key, label) ->
      exists line pre,
        lines !! i = Some line /\
        (is_checked line <-> key ∈ current_display) /\
        line = pre ++ u " bash=" ++ script
               ++ u " param1=--toggle-display param2=" ++ key ++ u " terminal=false refresh=true".
Proof.
  unfold _print_display_submenu. rewrite io_bind_print. cbn [prints fst snd].
  eexists _, _. split; [reflexivity|]. split; [now rewrite length_map|].
  intros i key label Hi. rewrite list_lookup_fmap, Hi. cbn [fmap option_fmap option_map].
  eexists _, (u "--" ++ (if str_in key current_display then CHECK_MARK :: u " " else u "   ")
              ++ label ++ u " | font=" ++ MONO_FONT ++ u " size=" ++ str_of_int SMALL_SIZE).
  split; [reflexivity|]. split.
  - rewrite is_checked_mark. apply str_in_true.
  - unfold fstr. cbn [concat]. rewrite app_nil_r, <- !app_assoc. reflexivity.
Qed.

Lemma display_submenu_lines_witness :
  exists (header : pystr) (lines : list pystr) (line pre : pystr),
    _print_display_submenu sample_script [u "cost"] = (header :: lines, Ok tt) /\
    lines !! 1%nat = Some line /\
    (is_checked line <-> u "cost" ∈ [u "cost"]) /\
    line = pre ++ u " bash=" ++ sample_script
           ++ u " param1=--toggle-display param2=" ++ u "cost" ++ u " terminal=false refresh=true".
Proof.
  destruct (display_submenu_lines sample_script [u "cost"]) as (header & lines & H1 & _ & H3).
  destruct (H3 1%nat (u "cost") (u "Cost ($)") eq_refl) as (line & pre & Hl & Hc & He).
  exists header, lines, line, pre. auto.
Defined.

Lemma plan_labels_valid (p : pystr) :
  p ∈ VALID_PLANS -> exists label, PLAN_LABELS !! p = Some label.
Proof.
  intros H. unfold VALID_PLANS in H.
  repeat (apply elem_of_cons in H as [->|H]; [eexists; reflexivity|]). inversion H.
Qed.

Section PlanMenu.

Variable str_lower : pystr -> pystr.
Variable str_upper : pystr -> pystr.

(** X17. The plan submenu of the resolved plan: the header shows the
    label of the plan from the table of labels, there is one line for each
    of the four plans, the check mark is on the line of the resolved plan
    and on no other, and the action of a line calls the script with
    [--set-plan] and its plan. *)
Theorem plan_submenu_lines (w : world) :
  let plan := get_plan str_lower w in
  exists (label : pystr) (lines : list pystr),
    PLAN_LABELS !! plan = Some label /\
    _print_plan_submenu str_upper (script_path w) plan
    = ((u "Plan: " ++ label ++ u " | color=#FFFFFF font=SFMono-Regular size=12") :: lines, Ok tt) /\
    length lines = length VALID_PLANS /\
    forall (i : nat) (plan_key : pystr),
      VALID_PLANS !! i = Some plan_key ->
      exists line pre,
        lines !! i = Some line /\
        (is_checked line <-> plan_key = plan) /\
        line = pre ++ u " bash=" ++ script_path w
               ++ u " param1=--set-plan param2=" ++ plan_key ++ u " terminal=false refresh=true".
Proof.
  intros plan.
  destruct (plan_labels_valid plan (get_plan_in_valid_plans str_lower w)) as (label & Hl).
  assert (Hh : fstr [u "Plan: "; label; u " | color="; COLOR_WHITE; u " font="; MONO_FONT;
                     u " size="; str_of_int BODY_SIZE]
               = u "Plan: " ++ label ++ u " | color=#FFFFFF font=SFMono-Regular size=12")
    by (unfold fstr; cbn [concat]; do 2 f_equal; reflexivity).
  exists label. unfold _print_plan_submenu. rewrite Hl, io_bind_print.
  cbn [prints fst snd from_option]. unfold id. rewrite Hh.
  eexists. split; [reflexivity|]. split; [reflexivity|].
  split; [now rewrite length_map|].
  intros i plan_key Hi. rewrite list_lookup_fmap, Hi. cbn [fmap option_fmap option_map].
  eexists _, (u "--" ++ (if bool_decide (plan_key = plan) then CHECK_MARK :: u " " else u "   ")
              ++ default [] (PLAN_LABELS !! plan_key)
              ++ u " | font=" ++ MONO_FONT ++ u " size=" ++ str_of_int SMALL_SIZE).
  split; [reflexivity|]. split.
  - rewrite is_checked_mark. apply bool_decide_eq_true.
  - unfold fstr. cbn [concat]. rewrite app_nil_r, <- !app_assoc. reflexivity.
Qed.

End PlanMenu.

Lemma plan_submenu_lines_witness :
  exists (label : pystr) (lines : list pystr) (line pre : pystr),
    _print_plan_submenu ascii_upper sample_script (u "max5")
    = ((u "Plan: " ++ label ++ u " | color=#FFFFFF font=SFMono-Regular size=12") :: lines, Ok tt) /\
    lines !! 1%nat = Some line /\ is_checked line.
Proof.
  destruct (plan_submenu_lines ascii_lower ascii_upper
              (World (Some (u "max5")) Missing Missing sample_script))
    as (label & lines & _ & H2 & _ & H4).
  destruct (H4 1%nat (u "max5") eq_refl) as (line & pre & Hl & Hc & _).
  exists label, lines, line, pre. split; [exact H2|]. split; [exact Hl|].
  apply Hc. reflexivity.
Defined.

(** * Further properties of the entry point *)

Section Commands.

Variable str_lower : pystr -> pystr.
Variable str_upper : pystr -> pystr.
Variable dashboard_tail : block -> io unit.



End Commands.



(** * Properties of the model distribution *)

Lemma insert_desc_perm (x : pystr * model_stats) (l : list (pystr * model_stats)) :
  insert_desc x l ≡ₚ x :: l.
Proof.
  induction l as [|y ys IH]; simpl; [reflexivity|].
  destruct (model_key x <? model_key y); [|reflexivity].
  rewrite IH. apply Permutation_swap.
Qed.

Lemma sorted_desc_perm (l : list (pystr * model_stats)) : sorted_desc l ≡ₚ l.
Proof.
  induction l as [|x xs IH]; simpl; [reflexivity|].
  rewrite insert_desc_perm. now rewrite IH.
Qed.

Lemma insert_desc_sorted (x : pystr * model_stats) (l : list (pystr * model_stats)) :
  StronglySorted (fun a b => model_key b <= model_key a) l ->
  StronglySorted (fun a b => model_key b <= model_key a) (insert_desc x l).
Proof.
  induction 1 as [|y ys Hs IH Hy]; simpl; [repeat constructor|].
  destruct (model_key x <? model_key y) eqn:E.
  - apply Z.ltb_lt in E. constructor; [exact IH|].
    rewrite insert_desc_perm. constructor; [lia | exact Hy].
  - apply Z.ltb_ge in E. constructor; [now constructor|].
    constructor; [exact E|].
    eapply Forall_impl; [exact Hy|]. simpl. intros z Hz. lia.
Qed.

Lemma sorted_desc_sorted (l : list (pystr * model_stats)) :
  StronglySorted (fun a b => model_key b <= model_key a) (sorted_desc l).
Proof.
  induction l as [|x xs IH]; simpl; [constructor | now apply insert_desc_sorted].
Qed.

Lemma dict_models_sorted (l : list (pystr * model_stats)) :
  StronglySorted (fun a b => model_key b <= model_key a) l ->
  StronglySorted (fun a b : pystr * Z => snd b <= snd a) (dict_models l).
Proof.
  induction 1 as [|[n s] ys Hs IH Hy]; simpl; [constructor|].
  unfold dict_models. simpl. fold (dict_models ys).
  destruct s as [total|]; [|exact IH].
  constructor; [exact IH|].
  apply Forall_forall. intros [n' t'] Hin.
  apply list_elem_of_omap in Hin as ([n2 s2] & Hin2 & Heq).
  rewrite Forall_forall in Hy. specialize (Hy _ Hin2).
  unfold model_key in Hy. simpl in *.
  destruct s2; [|discriminate]. injection Heq as <- <-. exact Hy.
Qed.

Lemma io_for_models (tokens : Z) (l : list (pystr * model_stats)) :
  0 < tokens ->
  io_for l (fun '(model_name, stats) =>
              match stats with
              | StatsDict total => print_model tokens model_name total
              | StatsOther => prints []
              end)
  = (map (model_line tokens) (dict_models l), Ok tt).
Proof.
  intros Ht. induction l as [|[n s] xs IH]; [reflexivity|].
  unfold io_for in *. cbn [foldr]. rewrite IH.
  unfold dict_models. cbn [omap list_omap snd fst]. fold (dict_models xs).
  destruct s as [total|]; [|reflexivity].
  unfold print_model. rewrite pct_of_limit_value, io_bind_lift_ok. reflexivity.
Qed.

(** X20. The model distribution: with tokens above zero and a
    non-empty dict, a separator and a header are printed, then one line
    for each model whose value is a dict, by decreasing number of tokens;
    the values of another type give no line.  With no model, or with
    tokens at zero or below, nothing is printed.  Nothing is raised. *)
Theorem model_distribution_sorted (per_model : list (pystr * model_stats)) (tokens : Z) :
  (per_model <> [] -> 0 < tokens ->
   exists rows : list (pystr * Z),
     rows ≡ₚ dict_models per_model /\
     StronglySorted (fun a b : pystr * Z => snd b <= snd a) rows /\
     print_model_distribution per_model tokens
     = (u "---" :: u "Models | color=#FFFFFF font=SFMono-Regular size=12"
        :: map (model_line tokens) rows, Ok tt)) /\
  (per_model = [] \/ tokens <= 0 -> print_model_distribution per_model tokens = ([], Ok tt)).
Proof.
  split.
  - intros Hne Ht. exists (dict_models (sorted_desc per_model)). split; [|split].
    + unfold dict_models. now rewrite sorted_desc_perm.
    + apply dict_models_sorted, sorted_desc_sorted.
    + unfold print_model_distribution. destruct per_model as [|x xs]; [contradiction|].
      rewrite (proj2 (Z.ltb_lt 0 tokens) Ht).
      rewrite !io_bind_print, (io_for_models tokens _ Ht). reflexivity.
  - intros [-> | Ht]; [reflexivity|].
    unfold print_model_distribution. destruct per_model; [reflexivity|].
    now rewrite (proj2 (Z.ltb_ge 0 tokens) Ht).
Qed.

Lemma model_distribution_sorted_witness :
  let per_model := [ (u "haiku", StatsDict (Some 100)); (u "note", StatsOther);
                     (u "opus", StatsDict (Some 700)); (u "sonnet", StatsDict None) ] in
  exists rows : list (pystr * Z),
    rows ≡ₚ [(u "haiku", 100); (u "opus", 700); (u "sonnet", 0)] /\
    StronglySorted (fun a b : pystr * Z => snd b <= snd a) rows /\
    print_model_distribution per_model 800
    = (u "---" :: u "Models | color=#FFFFFF font=SFMono-Regular size=12"
       :: map (model_line 800) rows, Ok tt).
Proof.
  intros per_model.
  destruct (model_distribution_sorted per_model 800) as (H & _).
  apply H; [discriminate | reflexivity].
Defined.

Lemma ljust_length (w : nat) (s : pystr) : (length s <= w)%nat -> length (ljust w s) = w.
Proof. intros H. unfold ljust. rewrite length_app, length_replicate. lia. Qed.

(** X21. The line of a model: the name fills a field of exactly 24 code
    points, a name of more than 22 code points being cut to its first 22
    followed by an ellipsis; the share is shown in a field of at least 3;
    the color is the dim one when the share is at most 50 (50 included)
    and the threshold color of the share above 50, so never green. *)
Theorem model_line_shape (tokens : Z) (name : pystr) (model_tokens : Z) :
  let pct := pct_value (inject_Z model_tokens) (inject_Z tokens) in
  exists (field color : pystr),
    model_line tokens (name, model_tokens)
    = u "  " ++ field ++ u " " ++ rjust 3 (format_f 0 pct) ++ u "% | color=" ++ color
      ++ u " font=SFMono-Regular size=11" /\
    length field = 24%nat /\
    ((length name <= 22)%nat -> take (length name) field = name) /\
    ((22 < length name)%nat -> take 23 field = take 22 name ++ [ELLIPSIS]) /\
    (3 <= length (rjust 3 (format_f 0 pct)))%nat /\
    ((pct <= 50)%Q -> color = COLOR_DIM) /\
    ((50 < pct)%Q -> color = get_color pct /\
                     color ∈ [COLOR_YELLOW; COLOR_ORANGE; COLOR_RED]).
Proof.
  intros pct. unfold model_line. cbn [fst snd]. fold pct.
  eexists (ljust 24 _), (if Qlt_bool 50 pct then get_color pct else COLOR_DIM).
  split; [|split; [|split; [|split; [|split; [|split]]]]].
  - unfold fstr. cbn [concat]. rewrite app_nil_r. reflexivity.
  - apply ljust_length. destruct (22 <? length name)%nat eqn:E.
    + apply Nat.ltb_lt in E. rewrite length_app, length_take. cbn [length]. lia.
    + apply Nat.ltb_ge in E. lia.
  - intros H. rewrite (proj2 (Nat.ltb_ge 22 (length name)) H).
    unfold ljust. now rewrite take_app_length.
  - intros H. rewrite (proj2 (Nat.ltb_lt 22 (length name)) H).
    unfold ljust.
    assert (Hl : length (take 22 name ++ [ELLIPSIS]) = 23%nat)
      by (rewrite length_app, length_take; cbn [length]; lia).
    rewrite <- Hl at 1. now rewrite take_app_length.
  - unfold rjust. rewrite length_app, length_replicate. lia.
  - intros H. now rewrite (proj2 (Qlt_bool_false_iff 50 pct) H).
  - intros H. rewrite (proj2 (Qlt_bool_iff 50 pct) H). split; [reflexivity|].
    unfold get_color.
    destruct (Qle_bool 95 pct); [set_solver|].
    destruct (Qle_bool 80 pct); [set_solver|].
    assert (E : Qle_bool 50 pct = true) by (apply Qle_bool_iff; lra).
    rewrite E. set_solver.
Qed.

Lemma model_line_shape_witness :
  exists (field color : pystr),
    model_line 1000 (u "claude-sonnet-4-20250514-thinking", 500)
    = u "  " ++ field ++ u " " ++ rjust 3 (format_f 0 (pct_value 500 1000)) ++ u "% | color="
      ++ color ++ u " font=SFMono-Regular size=11" /\
    take 23 field = take 22 (u "claude-sonnet-4-20250514-thinking") ++ [ELLIPSIS] /\
    color = COLOR_DIM.
Proof.
  destruct (model_line_shape 1000 (u "claude-sonnet-4-20250514-thinking") 500)
    as (field & color & H1 & _ & _ & H4 & _ & H6 & _).
  exists field, color. split; [exact H1|]. split.
  - apply H4. simpl. lia.
  - apply H6. discriminate.
Defined.

(** * Properties of the path set-up *)

Lemma str_lt_irrefl (a : pystr) : str_lt a a = false.
Proof.
  induction a as [|x xs IH]; [reflexivity|]. simpl.
  now rewrite N.ltb_irrefl.
Qed.

Lemma str_lt_asym (a b : pystr) : str_lt a b = true -> str_lt b a = false.
Proof.
  revert b. induction a as [|x xs IH]; intros [|y ys]; simpl; try easy.
  destruct (N.ltb_spec x y), (N.ltb_spec y x); try easy; try lia. apply IH.
Qed.

(** [>=] on strings is transitive. *)
Lemma str_ge_trans (a b c : pystr) :
  str_lt a b = false -> str_lt b c = false -> str_lt a c = false.
Proof.
  revert b c. induction a as [|x xs IH]; intros [|y ys] [|z zs]; simpl; try easy.
  destruct (N.ltb_spec x y), (N.ltb_spec y x), (N.ltb_spec y z), (N.ltb_spec z y),
    (N.ltb_spec x z), (N.ltb_spec z x); try easy; try lia.
  apply IH.
Qed.

Lemma insert_path_perm (x : pystr * bool) (l : list (pystr * bool)) :
  insert_path x l ≡ₚ x :: l.
Proof.
  induction l as [|y ys IH]; simpl; [reflexivity|].
  destruct (str_lt (fst x) (fst y)); [|reflexivity].
  rewrite IH. apply Permutation_swap.
Qed.

Lemma sorted_paths_perm (l : list (pystr * bool)) : sorted_paths l ≡ₚ l.
Proof.
  induction l as [|x xs IH]; simpl; [reflexivity|].
  rewrite insert_path_perm. now rewrite IH.
Qed.

Lemma insert_path_sorted (x : pystr * bool) (l : list (pystr * bool)) :
  StronglySorted (fun a b => str_lt (fst a) (fst b) = false) l ->
  StronglySorted (fun a b => str_lt (fst a) (fst b) = false) (insert_path x l).
Proof.
  induction 1 as [|y ys Hs IH Hy]; simpl; [repeat constructor|].
  destruct (str_lt (fst x) (fst y)) eqn:E.
  - constructor; [exact IH|].
    rewrite insert_path_perm. constructor; [now apply str_lt_asym | exact Hy].
  - constructor; [now constructor|].
    constructor; [exact E|].
    eapply Forall_impl; [exact Hy|]. simpl. intros z Hz.
    now apply (str_ge_trans _ (fst y)).
Qed.

Lemma sorted_paths_sorted (l : list (pystr * bool)) :
  StronglySorted (fun a b => str_lt (fst a) (fst b) = false) (sorted_paths l).
Proof.
  induction l as [|x xs IH]; simpl; [constructor | now apply insert_path_sorted].
Qed.

(** The first directory of a list sorted by decreasing name is a
    directory of the list whose name no other directory exceeds. *)
Lemma first_dir_greatest (l : list (pystr * bool)) :
  StronglySorted (fun a b => str_lt (fst a) (fst b) = false) l ->
  match first_dir l with
  | Some name =>
      (name, true) ∈ l /\ forall name', (name', true) ∈ l -> str_lt name name' = false
  | None => forall name', (name', true) ∉ l
  end.
Proof.
  induction 1 as [|[n d] ys Hs IH Hy]; simpl.
  - intros name' H. inversion H.
  - destruct d.
    + split; [left|]. intros name' Hin.
      apply elem_of_cons in Hin as [[= ->]|Hin]; [apply str_lt_irrefl|].
      rewrite Forall_forall in Hy. exact (Hy _ Hin).
    + destruct (first_dir ys) as [name|].
      * destruct IH as (Hin & Hmax). split; [now right|].
        intros name' Hin'. apply elem_of_cons in Hin' as [[=]|Hin']. now apply Hmax.
      * intros name' Hin. apply elem_of_cons in Hin as [[=]|Hin]. now apply (IH name').
Qed.

(** X22. The path set-up changes [sys.path] by at most one entry, put
    in front.  It leaves it as it is when the package imports, when the
    directory of the tool or its [lib] is missing, and when no match is a
    directory.  Otherwise it adds the site-packages path of the match
    that is a directory and has the greatest name in the order of
    strings, in which python3.9 comes after python3.12.  Only an
    exception of the import that is not an [ImportError] is raised. *)
Theorem setup_uv_tool_path_spec (inst : install) (sys_path : list pystr) :
  (import_outcome inst = None -> _setup_uv_tool_path inst sys_path = Ok sys_path) /\
  (forall e, import_outcome inst = Some e -> exn_cls e <> ImportError ->
     _setup_uv_tool_path inst sys_path = Raise e) /\
  (forall e, import_outcome inst = Some e -> exn_cls e = ImportError ->
     (uv_tool_dir_exists inst = false \/ lib_dir_exists inst = false \/
      (forall name, (name, true) ∉ site_packages inst) ->
      _setup_uv_tool_path inst sys_path = Ok sys_path) /\
     (uv_tool_dir_exists inst = true -> lib_dir_exists inst = true ->
      forall name0, (name0, true) ∈ site_packages inst ->
      exists name,
        (name, true) ∈ site_packages inst /\
        (forall name', (name', true) ∈ site_packages inst -> str_lt name name' = false) /\
        _setup_uv_tool_path inst sys_path
        = Ok ((lib_dir inst ++ u "/" ++ name ++ u "/site-packages") :: sys_path))).
Proof.
  unfold _setup_uv_tool_path. split; [|split].
  - intros ->. reflexivity.
  - intros e -> Hne. destruct (exn_cls e); try reflexivity. contradiction.
  - intros e -> ->.
    pose proof (first_dir_greatest _ (sorted_paths_sorted (site_packages inst))) as Hf.
    split.
    + intros [-> | [-> | Hnone]]; [reflexivity | now destruct (uv_tool_dir_exists inst) |].
      destruct (uv_tool_dir_exists inst), (lib_dir_exists inst); try reflexivity. simpl.
      destruct (first_dir _) as [name|]; [|reflexivity].
      destruct Hf as (Hin & _). rewrite sorted_paths_perm in Hin. now destruct (Hnone name).
    + intros -> -> name0 Hin0. simpl.
      destruct (first_dir _) as [name|].
      * destruct Hf as (Hin & Hmax). exists name.
        split; [now rewrite sorted_paths_perm in Hin|].
        split; [|reflexivity].
        intros name' Hin'. apply Hmax. now rewrite sorted_paths_perm.
      * destruct (Hf name0). now rewrite sorted_paths_perm.
Qed.

Lemma setup_uv_tool_path_spec_witness :
  let inst :=
    Install (Some (Exn ImportError (u "No module named 'claude_monitor'"))) true true
      (u "/home/u/.local/share/uv/tools/claude-monitor/lib")
      [(u "python3.12", true); (u "python3.9", true); (u "python3.13", false)] in
  exists name,
    str_lt name (u "python3.9") = false /\
    _setup_uv_tool_path inst [u "/usr/lib/python3"]
    = Ok ((lib_dir inst ++ u "/" ++ name ++ u "/site-packages") :: [u "/usr/lib/python3"]).
Proof.
  intros inst.
  destruct (setup_uv_tool_path_spec inst [u "/usr/lib/python3"]) as (_ & _ & H).
  destruct (H (Exn ImportError (u "No module named 'claude_monitor'")) eq_refl eq_refl)
    as (_ & H2).
  assert (Hin : (u "python3.9", true) ∈ site_packages inst) by (right; left).
  destruct (H2 eq_refl eq_refl (u "python3.9") Hin) as (name & _ & Hmax & Heq).
  exists name. split; [now apply Hmax | exact Heq].
Defined.

(** * Properties of the grouping of thousands *)

Lemma pow1000_bound (n : Z) : 0 <= n -> n < 1000 ^ (Z.log2 n + 1).
Proof.
  intros H. destruct (Z.eq_dec n 0) as [->|Hn]; [reflexivity|].
  pose proof (Z.log2_nonneg n).
  apply Z.lt_le_trans with (2 ^ (Z.log2 n + 1)).
  - replace (Z.log2 n + 1) with (Z.succ (Z.log2 n)) by lia. apply Z.log2_spec. lia.
  - apply Z.pow_le_mono_l. lia.
Qed.

(** The result of [group3] does not depend on the fuel, once there is
    enough of it for the number. *)
Lemma group3_fuel (f1 f2 : nat) (n : Z) :
  0 <= n -> n < 1000 ^ (Z.of_nat f1 + 1) -> n < 1000 ^ (Z.of_nat f2 + 1) ->
  group3 f1 n = group3 f2 n.
Proof.
  revert f2 n. induction f1 as [|f1 IH]; intros f2 n H0 H1 H2.
  - simpl in *. destruct f2 as [|f2]; [reflexivity|]. simpl.
    now rewrite (proj2 (Z.ltb_lt n 1000)) by lia.
  - simpl group3 at 1. destruct (Z.ltb_spec n 1000) as [Hlt|Hge].
    + destruct f2 as [|f2]; [reflexivity|]. simpl.
      now rewrite (proj2 (Z.ltb_lt n 1000)) by lia.
    + destruct f2 as [|f2]; [simpl in H2; lia|]. simpl.
      rewrite (proj2 (Z.ltb_ge n 1000)) by lia.
      rewrite (IH f2 (n / 1000)); [reflexivity | | |].
      * apply Z.div_pos; lia.
      * apply Z.div_lt_upper_bound; [lia|].
        replace (Z.of_nat (S f1) + 1) with (Z.succ (Z.of_nat f1 + 1)) in H1 by lia.
        rewrite Z.pow_succ_r in H1 by lia. exact H1.
      * apply Z.div_lt_upper_bound; [lia|].
        replace (Z.of_nat (S f2) + 1) with (Z.succ (Z.of_nat f2 + 1)) in H2 by lia.
        rewrite Z.pow_succ_r in H2 by lia. exact H2.
Qed.

Lemma fmt_number_nonneg (n : Z) (fuel : nat) :
  0 <= n -> n < 1000 ^ (Z.of_nat fuel + 1) -> fmt_number n = group3 fuel n.
Proof.
  intros H0 H1. unfold fmt_number. rewrite (proj2 (Z.ltb_ge n 0)) by lia.
  apply group3_fuel; [exact H0 | | exact H1].
  rewrite Z2Nat.id by apply Z.log2_nonneg. now apply pow1000_bound.
Qed.

Lemma fmt_number_small (n : Z) : 0 <= n < 1000 -> fmt_number n = str_of_nonneg n.
Proof.
  intros H. rewrite (fmt_number_nonneg n 0) by (simpl; lia). reflexivity.
Qed.

Lemma fmt_number_step (n : Z) :
  1000 <= n ->
  fmt_number n = fmt_number (n / 1000) ++ u "," ++ frac_digits 3 (n mod 1000).
Proof.
  intros H.
  assert (H0 : 0 <= n / 1000) by (apply Z.div_pos; lia).
  pose proof (pow1000_bound (n / 1000) H0) as Hb.
  pose proof (Z.log2_nonneg (n / 1000)) as Hl.
  rewrite (fmt_number_nonneg n (S (Z.to_nat (Z.log2 (n / 1000))))).
  - simpl group3. rewrite (proj2 (Z.ltb_ge n 1000)) by lia.
    rewrite <- (fmt_number_nonneg (n / 1000)); [reflexivity | exact H0 |].
    now rewrite Z2Nat.id.
  - lia.
  - rewrite Nat2Z.inj_succ, Z2Nat.id by exact Hl.
    replace (Z.succ (Z.log2 (n / 1000)) + 1) with (Z.succ (Z.log2 (n / 1000) + 1)) by lia.
    rewrite Z.pow_succ_r by lia.
    pose proof (Z.div_mod n 1000 ltac:(lia)). pose proof (Z.mod_pos_bound n 1000 ltac:(lia)).
    lia.
Qed.

Lemma digits_value_app (s t : pystr) :
  digits_value (s ++ t)
  = fold_left (fun acc c => if (c =? 44)%N then acc else acc * 10 + (Z.of_N c - 48)) t
      (digits_value s).
Proof. unfold digits_value. apply fold_left_app. Qed.

(** Below 1000 the decimal text reads back as the number. *)
Lemma digits_value_small (n : Z) : 0 <= n < 1000 -> digits_value (str_of_nonneg n) = n.
Proof.
  intros H.
  assert (Hall : forallb (fun k => digits_value (str_of_nonneg (Z.of_nat k)) =? Z.of_nat k)
                   (seq 0 1000) = true) by (vm_compute; reflexivity).
  rewrite forallb_forall in Hall.
  specialize (Hall (Z.to_nat n)). rewrite Z2Nat.id in Hall by lia.
  apply Z.eqb_eq, Hall, in_seq. lia.
Qed.

Lemma digits_value_group (s : pystr) (r : Z) :
  0 <= r < 1000 ->
  digits_value (s ++ u "," ++ frac_digits 3 r) = digits_value s * 1000 + r.
Proof.
  intros H. rewrite digits_value_app. cbn [frac_digits app u]. simpl fold_left.
  unfold digit.
  pose proof (Z.mod_pos_bound r 10 ltac:(lia)).
  pose proof (Z.mod_pos_bound (r / 10) 10 ltac:(lia)).
  pose proof (Z.mod_pos_bound (r / 10 / 10) 10 ltac:(lia)).
  assert (Hd : forall d, 0 <= d < 10 ->
                 ((48 + Z.to_N d =? 44)%N = false) /\ Z.of_N (48 + Z.to_N d) - 48 = d).
  { intros d Hd. split; [apply N.eqb_neq|]; lia. }
  destruct (Hd _ H0) as (-> & ->). destruct (Hd _ H1) as (-> & ->).
  destruct (Hd _ H2) as (-> & ->).
  pose proof (Z.div_mod r 10 ltac:(lia)).
  pose proof (Z.div_mod (r / 10) 10 ltac:(lia)).
  assert (r / 10 / 10 < 10) by (apply Z.div_lt_upper_bound; [lia|];
                                 apply Z.div_lt_upper_bound; lia).
  assert (0 <= r / 10 / 10) by (apply Z.div_pos; [apply Z.div_pos|]; lia).
  rewrite (Z.mod_small (r / 10 / 10) 10) by lia. lia.
Qed.

Lemma digits_value_fmt_number (n : Z) : 0 <= n -> digits_value (fmt_number n) = n.
Proof.
  intros H.
  apply (Z_lt_induction (fun k => 0 <= k -> digits_value (fmt_number k) = k));
    [|exact H|exact H].
  intros k IH Hk. destruct (Z.ltb_spec k 1000) as [Hlt|Hge].
  - rewrite fmt_number_small by lia. apply digits_value_small. lia.
  - rewrite fmt_number_step by lia.
    pose proof (Z.mod_pos_bound k 1000 ltac:(lia)).
    rewrite digits_value_group by lia.
    assert (Hq : 0 <= k / 1000 < k) by (split; [apply Z.div_pos; lia | apply Z.div_lt; lia]).
    rewrite (IH (k / 1000) Hq) by lia.
    pose proof (Z.div_mod k 1000 ltac:(lia)). lia.
Qed.

(** X23. [fmt_number] groups the digits by three from the right: below
    1000 the text is the decimal text of the number, from 1000 on it is
    the text of the thousands, a comma and the three digits of the rest;
    a number below zero gets a minus sign before the text of its opposite.
    Read without the commas, the digits shown are the number. *)
Theorem fmt_number_groups (n : Z) :
  (0 <= n < 1000 -> fmt_number n = str_of_nonneg n) /\
  (1000 <= n ->
     fmt_number n = fmt_number (n / 1000) ++ u "," ++ frac_digits 3 (n mod 1000)) /\
  (n < 0 -> fmt_number n = u "-" ++ fmt_number (- n)) /\
  (0 <= n -> digits_value (fmt_number n) = n).
Proof.
  split; [apply fmt_number_small|]. split; [apply fmt_number_step|]. split.
  - intros H. unfold fmt_number.
    rewrite (proj2 (Z.ltb_lt n 0)) by lia. now rewrite (proj2 (Z.ltb_ge (- n) 0)) by lia.
  - apply digits_value_fmt_number.
Qed.

Lemma fmt_number_groups_witness :
  fmt_number 1234567 = fmt_number 1234 ++ u "," ++ frac_digits 3 567 /\
  fmt_number (-1234567) = u "-" ++ fmt_number 1234567 /\
  digits_value (fmt_number 1234567) = 1234567.
Proof.
  destruct (fmt_number_groups 1234567) as (_ & H2 & _ & H4).
  destruct (fmt_number_groups (-1234567)) as (_ & _ & H3 & _).
  split; [apply H2; discriminate|]. split; [apply H3; reflexivity|].
  apply H4. discriminate.
Defined.

(** * The toggle command *)


Section ToggleCommand.

Variable str_lower : pystr -> pystr.
Variable str_upper : pystr -> pystr.
Variable dashboard_tail : block -> io unit.


End ToggleCommand.

Lemma ascii_lower_metric (k : pystr) : k ∈ valid_keys -> ascii_lower k = k.
Proof.
  intros H. apply valid_keys_cases in H.
  destruct H as [->|[->|[->|[->| ->]]]]; reflexivity.
Qed.


Lemma overall_color_severity_witness :
  get_color (py_max (py_max 12 97) 40) = COLOR_RED /\
  get_color (py_max (py_max 12 30) 40) = COLOR_GREEN.
Proof.
  destruct (overall_color_severity 12 97 40) as (H1 & _).
  destruct (overall_color_severity 12 30 40) as (_ & H2).
  split.
  - apply H1. right; left. reflexivity.
  - apply H2. repeat split; reflexivity.
Defined.

(** * The entries of a stored display list *)

Lemma filter_valid_hashable (l : list json) :
  Forall (fun j => ~ unhashable j) l -> filter_valid l = Ok (recognized l).
Proof.
  induction 1 as [|j js Hj _ IH]; [reflexivity|].
  destruct j; simpl in *; try exact IH; try (now destruct Hj).
  now rewrite IH.
Qed.

Lemma filter_valid_unhashable (l : list json) :
  Exists unhashable l -> exists e, filter_valid l = Raise e.
Proof.
  induction 1 as [j js Hj|j js _ IH].
  - destruct j; simpl in Hj; try contradiction; eexists; reflexivity.
  - destruct IH as (e & He).
    destruct j; simpl; rewrite ?He; eexists; reflexivity.
Qed.

(** X25. What [get_display] makes of a stored list.  When no entry is a
    list or an object, the result is the recognized entries in their
    stored order, repetitions kept, the other entries (numbers, booleans,
    null, other strings) dropped; unless there is none, which gives the
    default list.  When some entry is a list or an object, the result is
    the default list, whatever recognized entries the list holds. *)
Theorem get_display_stored_entries (m : gmap pystr json) (l : list json) :
  m !! u "display" = Some (JList l) ->
  (Forall (fun j => ~ unhashable j) l -> recognized l <> [] ->
     get_display (Parsed (JObj m)) = recognized l) /\
  (Forall (fun j => ~ unhashable j) l -> recognized l = [] ->
     get_display (Parsed (JObj m)) = DEFAULT_DISPLAY) /\
  (Exists unhashable l -> get_display (Parsed (JObj m)) = DEFAULT_DISPLAY).
Proof.
  intros Hm. unfold get_display, get_display_try. simpl. rewrite Hm.
  split; [|split].
  - intros Hh Hne. rewrite (filter_valid_hashable _ Hh). simpl.
    destruct (recognized l); [contradiction | reflexivity].
  - intros Hh He. rewrite (filter_valid_hashable _ Hh). simpl. now rewrite He.
  - intros Hu. destruct (filter_valid_unhashable _ Hu) as (e & ->). reflexivity.
Qed.

Lemma get_display_stored_entries_witness :
  get_display (Parsed (JObj {[ u "display" :=
      JList [JStr (u "msg"); JInt 3; JStr (u "bogus"); JStr (u "cost"); JStr (u "msg")] ]}))
  = [u "msg"; u "cost"; u "msg"] /\
  get_display (Parsed (JObj {[ u "display" := JList [JStr (u "msg"); JList []] ]}))
  = DEFAULT_DISPLAY.
Proof.
  split.
  - destruct (get_display_stored_entries
                {[ u "display" :=
                     JList [JStr (u "msg"); JInt 3; JStr (u "bogus"); JStr (u "cost");
                            JStr (u "msg")] ]}
                [JStr (u "msg"); JInt 3; JStr (u "bogus"); JStr (u "cost"); JStr (u "msg")]
                (lookup_singleton_eq _ _)) as (H & _).
    apply H; [|discriminate].
    repeat constructor; simpl; tauto.
  - destruct (get_display_stored_entries
                {[ u "display" := JList [JStr (u "msg"); JList []] ]}
                [JStr (u "msg"); JList []] (lookup_singleton_eq _ _)) as (_ & _ & H).
    apply H. apply Exists_cons_tl, Exists_cons_hd. exact I.
Defined.

(** * The render path of the entry point *)

Section RenderPath.

Variable str_lower : pystr -> pystr.
Variable str_upper : pystr -> pystr.
Variable dashboard_tail : block -> io unit.

(** X26. Without a command the script renders and changes no file: with
    fewer than two arguments after the script name, or a first argument
    that is neither [--set-plan] nor [--toggle-display], the lines printed
    are those of [main] and the environment is as before.  The status is 0
    when the import succeeds or fails with [ImportError], the three limits
    of [Plans] return and the tail of the dashboard returns, whatever
    [analyze_usage] does and whatever the files hold. *)
Theorem render_path (argv : list pystr) (an : analyzer) (w : world) :
  (length argv < 3)%nat \/
  (exists arg1, argv !! 1%nat = Some arg1 /\
                arg1 <> u "--set-plan" /\ arg1 <> u "--toggle-display") ->
  let o := __main__ str_lower str_upper dashboard_tail argv an w in
  printed o = fst (main str_lower str_upper dashboard_tail an w) /\
  final_world o = w /\
  (exit_status o = 0 <-> snd (main str_lower str_upper dashboard_tail an w) = Ok tt) /\
  ((forall e, import_error an = Some e -> exn_cls e = ImportError) ->
   (forall plan bs, exists n, get_token_limit an plan bs = Ok n) ->
   (forall plan, exists q, get_cost_limit an plan = Ok q) ->
   (forall plan, exists n, get_message_limit an plan = Ok n) ->
   (forall b, snd (dashboard_tail b) = Ok tt) ->
   exit_status o = 0).
Proof.
  intros Hargv o.
  assert (Ho : o = let '(out, r) := main str_lower str_upper dashboard_tail an w in
                   Outcome out (match r with Ok _ => 0 | Raise _ => 1 end) w).
  { unfold o, __main__. destruct Hargv as [Hlen|(arg1 & Ha & Hn1 &Hn2)].
    - destruct argv as [|a0 [|a1 [|a2 rest]]]; try reflexivity. simpl in Hlen. lia.
    - destruct argv as [|a0 [|a1 [|a2 rest]]]; try reflexivity.
      simpl in Ha. injection Ha as ->.
      now rewrite !bool_decide_eq_false_2 by assumption. }
  rewrite Ho. clear Ho o.
  pose proof (main_returns str_lower str_upper dashboard_tail an w) as Hret.
  destruct (main str_lower str_upper dashboard_tail an w) as [out r].
  cbn [printed final_world exit_status fst snd] in *.
  split; [reflexivity|]. split; [reflexivity|]. split.
  - destruct r as [[]|e]; split; try reflexivity; discriminate.
  - intros H1 H2 H3 H4 H5. destruct (Hret H1 H2 H3 H4 H5) as (-> & _). reflexivity.
Qed.

End RenderPath.

Lemma render_path_witness :
  exit_status (__main__ ascii_lower ascii_upper no_tail [sample_script; u "--verbose"; u "x"]
                 (sample_analyzer [sample_block]) (sample_world Unreadable)) = 0.
Proof.
  destruct (render_path ascii_lower ascii_upper no_tail [sample_script; u "--verbose"; u "x"]
              (sample_analyzer [sample_block]) (sample_world Unreadable)) as (_ & _ & _ & H).
  - right. exists (u "--verbose"). split; [reflexivity|]. split; discriminate.
  - apply H.
    + intros e He. discriminate He.
    + intros plan bs. eexists. reflexivity.
    + intros plan. eexists. reflexivity.
    + intros plan. eexists. reflexivity.
    + intros b. reflexivity.
Defined.
